(** * zeus2polaris: a ZEUS-MP frame on a spherical grid, rewritten as a POLARIS grid

    A shallow embedding of [zeus2polaris_old.py] and the properties of its
    loader ([read_data]), its field writer ([write2grid]) and the converter
    itself ([zeus2polaris]).

    Modelling choices, all of them visible in the definitions below:
    - a double is a primitive binary64 float ([PrimFloat.float]); numpy's
      element-wise [!=], [*] and [sqrt] are the IEEE operations of the kernel;
    - the files the program reads form a [store]: a partial map from a path
      to the doubles [np.fromfile] finds there (permissions are not modelled:
      a path is a readable regular file or it is not);
    - a Python exception is a value of [exn]; a computation that may raise
      returns [result A := exn + A];
    - a numpy array is either one-dimensional (a list) or a three-axis strided
      view over a flat buffer ([array3]), which is what [reshape], slicing and
      [swapaxes] produce without copying;
    - the output file is the sequence of fields handed to [file.write]
      ([item]), together with its name, its open mode and whether it was
      closed.  [zeus2polaris] is the run whose output can be opened;
      [zeus2polaris_opening] and [main] take the exception [open] raises
      for a path, if any.  Messages printed on the terminal and the
      progress bar are not part of the model. *)

From Stdlib Require Import ZArith String Ascii Bool Lia.
From Stdlib Require Import Floats.PrimFloat Floats.SpecFloat Floats.FloatOps.
From Stdlib Require Import DecimalString.
From Stdlib Require Import List.
Import ListNotations.

Set Warnings "-inexact-float".

Local Open Scope string_scope.
Local Open Scope list_scope.

(** ** Exceptions and the error monad *)

Inductive exn : Type :=
| IOError (msg : string)       (* raised by [read_data] itself *)
| ValueError (msg : string)    (* [reshape], and the grid_format check *)
| IndexError (msg : string)    (* integer indexing out of bounds *)
| StructError (msg : string).  (* [struct.error] from [struct.pack] *)

Definition result (A : Type) : Type := (exn + A)%type.

Definition ret {A : Type} (a : A) : result A := inr a.
Definition raise {A : Type} (e : exn) : result A := inl e.

Definition bind {A B : Type} (m : result A) (k : A -> result B) : result B :=
  match m with
  | inl e => inl e
  | inr a => k a
  end.

Declare Scope err_scope.
Delimit Scope err_scope with err.
Notation "x <- m ;; k" := (bind m (fun x => k))
  (at level 61, m at next level, right associativity) : err_scope.

(** ** Python and numpy primitives *)

(** [str(n)] for a Python int. *)
Definition str_int (n : Z) : string := NilZero.string_of_int (Z.to_int n).

(** [float(n)] for a Python int: the nearest double, ties to even; an
    infinite result stands for Python's OverflowError. *)
Definition float_of_int (n : Z) : float :=
  SF2Prim (binary_normalize prec emax n 0 false).

(** How Python resolves one bound of [seq[lo:hi]] on a sequence of length
    [n]: a negative bound counts from the end, and the result is clamped to
    [0..n]. *)
Definition clamp_index (n : nat) (i : Z) : nat :=
  if (i <? 0)%Z
  then Z.to_nat (Z.max 0 (i + Z.of_nat n))
  else Z.to_nat (Z.min i (Z.of_nat n)).

(** [(start, length)] of the slice [lo:hi] on an axis of length [n]. *)
Definition slice_bounds (n : nat) (lo hi : Z) : nat * nat :=
  let start := clamp_index n lo in
  let stop := clamp_index n hi in
  (start, stop - start).

(** [l[lo:hi]] *)
Definition py_slice {A : Type} (lo hi : Z) (l : list A) : list A :=
  let '(start, len) := slice_bounds (length l) lo hi in
  firstn len (skipn start l).

(** [l[i]] for an integer index. *)
Definition py_index (l : list float) (i : Z) : result float :=
  let n := Z.of_nat (length l) in
  let j := if (i <? 0)%Z then (i + n)%Z else i in
  if ((0 <=? j) && (j <? n))%Z
  then ret (nth (Z.to_nat j) l 0%float)
  else raise (IndexError ("index " ++ str_int i
                ++ " is out of bounds for axis 0 with size " ++ str_int n)%string).

(** [np.diff(l)] *)
Fixpoint np_diff (l : list float) : list float :=
  match l with
  | x :: (y :: _) as t => (y - x)%float :: np_diff t
  | _ => []
  end.

(** A three-axis view on a flat buffer, as numpy keeps it: the element at
    [(i, j, k)] sits at [offset + i*s0 + j*s1 + k*s2] of [buf] (strides are
    counted in elements). *)
Record array3 : Type := mkArray3 {
  buf : list float;
  offset : nat;
  shape3 : nat * nat * nat;
  strides : nat * nat * nat
}.

Definition item3 (a : array3) (i j k : nat) : float :=
  let '(s0, s1, s2) := strides a in
  nth (offset a + i * s0 + j * s1 + k * s2) (buf a) 0%float.

Inductive ndarray : Type :=
| Arr1 (l : list float)
| Arr3 (a : array3).

Definition ndim (a : ndarray) : nat :=
  match a with Arr1 _ => 1 | Arr3 _ => 3 end.

(** [data.reshape(shape, order='F')] on a one-dimensional array: the first
    axis has stride 1. *)
Definition reshape_F (data : list float) (shape : nat * nat * nat) : result array3 :=
  let '(d0, d1, d2) := shape in
  if Nat.eqb (d0 * d1 * d2) (length data)
  then ret (mkArray3 data 0 shape (1, d0, d0 * d1))
  else raise (ValueError ("cannot reshape array of size "
                ++ str_int (Z.of_nat (length data)) ++ " into shape ("
                ++ str_int (Z.of_nat d0) ++ "," ++ str_int (Z.of_nat d1) ++ ","
                ++ str_int (Z.of_nat d2) ++ ")")%string).

(** [a[lo:hi, lo:hi, lo:hi]] *)
Definition slice3 (lo hi : Z) (a : array3) : array3 :=
  let '(d0, d1, d2) := shape3 a in
  let '(s0, s1, s2) := strides a in
  let '(b0, n0) := slice_bounds d0 lo hi in
  let '(b1, n1) := slice_bounds d1 lo hi in
  let '(b2, n2) := slice_bounds d2 lo hi in
  mkArray3 (buf a) (offset a + b0 * s0 + b1 * s1 + b2 * s2) (n0, n1, n2) (s0, s1, s2).

(** [np.swapaxes(a, 1, 2)] *)
Definition swapaxes12 (a : array3) : array3 :=
  let '(d0, d1, d2) := shape3 a in
  let '(s0, s1, s2) := strides a in
  mkArray3 (buf a) (offset a) (d0, d2, d1) (s0, s2, s1).

(** [np.ravel(a)]: row-major order, the last axis runs fastest. *)
Definition ravel3 (a : array3) : list float :=
  let '(d0, d1, d2) := shape3 a in
  flat_map (fun i =>
    flat_map (fun j =>
      map (fun k => item3 a i j k) (seq 0 d2)) (seq 0 d1)) (seq 0 d0).

(** [np.swapaxes(data, 1, 2)], called on arrays of more than one axis. *)
Definition np_swapaxes (data : ndarray) : ndarray :=
  match data with
  | Arr3 a => Arr3 (swapaxes12 a)
  | Arr1 l => Arr1 l
  end.

(** [np.ravel(data)]: the identity on a one-dimensional array. *)
Definition np_ravel (data : ndarray) : list float :=
  match data with
  | Arr1 l => l
  | Arr3 a => ravel3 a
  end.

(** [np.fromfile(file, dtype=np.double, count=entries)]: every item when
    [entries] is negative, at most [entries] items otherwise. *)
Definition np_fromfile (content : list float) (entries : Z) : list float :=
  if (entries <? 0)%Z then content else firstn (Z.to_nat entries) content.

(** ** The files the program reads *)

Definition store : Type := string -> option (list float).

(** [os.path.isfile] *)
Definition isfile (fs : store) (filename : string) : bool :=
  match fs filename with Some _ => true | None => false end.

(** The doubles behind [open(filename, 'rb')], for a path that is a file. *)
Definition open_rb (fs : store) (filename : string) : list float :=
  match fs filename with Some content => content | None => [] end.

(** ** read_data *)

Local Open Scope err_scope.

(** [read_data(filename, shape, unshape, trim_ghosts, entries)].  The Python
    defaults are [shape=None], [unshape=True], [trim_ghosts=None] and
    [entries=-1]; [shape], when given, is the three-axis tuple that
    [zeus2polaris] builds. *)
Definition read_data (fs : store) (filename : string)
    (shape : option (nat * nat * nat)) (unshape : bool)
    (trim_ghosts : option Z) (entries : Z) : result ndarray :=
  let func_name := ("[" ++ "read_data" ++ "] ")%string in
  if negb (isfile fs filename) then
    raise (IOError (func_name ++ filename ++ " does not exists or cannot be read.")%string)
  else
    let data := np_fromfile (open_rb fs filename) entries in
    data <- match trim_ghosts with
            | Some t =>
                match shape with
                | Some sh =>
                    a <- reshape_F data sh ;;
                    ret (Arr3 (slice3 t (- t) a))
                | None => ret (Arr1 (py_slice t (- t) data))
                end
            | None => ret (Arr1 data)
            end ;;
    if unshape
    then
      let data := if Nat.ltb 1 (ndim data) then np_swapaxes data else data in
      ret (Arr1 (np_ravel data))
    else ret data.


(** ** write2grid *)

(** A value handed to [write2grid]. *)
Inductive pyval : Type :=
| PyInt (n : Z)
| PyFloat (x : float)
| PyStr (s : string).

(** The two [struct] format characters the program uses. *)
Inductive dtype : Type :=
| fmt_H    (* "H": unsigned short, two bytes *)
| fmt_d.   (* "d": double, eight bytes *)

(** The bytes [struct.pack] returns, kept as the value they encode. *)
Inductive packed : Type :=
| UShort (n : Z)
| Double (x : float).

(** [struct.calcsize] *)
Definition calcsize (t : dtype) : nat :=
  match t with fmt_H => 2 | fmt_d => 8 end.

Definition packed_size (b : packed) : nat :=
  match b with UShort _ => calcsize fmt_H | Double _ => calcsize fmt_d end.

(** The two bytes of an unsigned short, low byte first. *)
Definition ushort_bytes (n : Z) : list Z := [n mod 256; n / 256]%Z.

(** [struct.pack(dtype, var)], with the messages of CPython 3.11, where
    a C long has 64 bits: an integer that does not fit a long is refused
    before the range of the format is looked at.  The wording of the
    messages differs between versions of Python. *)
Definition struct_pack (t : dtype) (var : pyval) : result packed :=
  match t, var with
  | fmt_H, PyInt n =>
      if ((0 <=? n) && (n <=? 65535))%Z
      then ret (UShort n)
      else if ((- 2 ^ 63 <=? n) && (n <? 2 ^ 63))%Z
      then raise (StructError "ushort format requires 0 <= number <= 65535")
      else raise (StructError "argument out of range")
  | fmt_H, _ => raise (StructError "required argument is not an integer")
  | fmt_d, PyFloat x => ret (Double x)
  | fmt_d, PyInt n =>
      let x := float_of_int n in
      if is_infinity x
      then raise (StructError "required argument is not a float")
      else ret (Double x)
  | fmt_d, PyStr _ => raise (StructError "required argument is not a float")
  end.

(** One call of [file.write]: packed bytes in binary mode; in ascii mode
    [str(var)] followed by a newline ([endl]) or by one space. *)
Inductive item : Type :=
| Packed (b : packed)
| Text (var : pyval) (endl : bool).

(** The output file. *)
Record file : Type := mkFile {
  name : string;
  mode : string;
  contents : list item;
  closed : bool
}.

(** [open(name, mode)] for writing: a new, empty file. *)
Definition open_ (name mode : string) : file := mkFile name mode [] false.

Definition file_write (file_ : file) (x : item) : file :=
  mkFile (name file_) (mode file_) (contents file_ ++ [x]) (closed file_).

Definition file_close (file_ : file) : file :=
  mkFile (name file_) (mode file_) (contents file_) true.

(** Statements that write to the open file and may raise: what was written
    before an exception stays in the file. *)
Definition io (A : Type) : Type := file -> result A * file.

Definition io_ret {A : Type} (a : A) : io A := fun file_ => (inr a, file_).

Definition io_bind {A B : Type} (m : io A) (k : A -> io B) : io B :=
  fun file_ =>
    match m file_ with
    | (inl e, file') => (inl e, file')
    | (inr a, file') => k a file'
    end.

Definition lift {A : Type} (r : result A) : io A := fun file_ => (r, file_).

Declare Scope io_scope.
Delimit Scope io_scope with io.
Notation "x <- m ;; k" := (io_bind m (fun x => k))
  (at level 61, m at next level, right associativity) : io_scope.
Notation "m ;; k" := (io_bind m (fun _ => k))
  (at level 61, right associativity) : io_scope.

(** [for x in l: body(x)] *)
Fixpoint for_each {A : Type} (l : list A) (body : A -> io unit) : io unit :=
  match l with
  | [] => io_ret tt
  | x :: t => (body x ;; for_each t body)%io
  end.

(** [write2grid(file_, format_, dtype, var, endl)]; any other [format_]
    writes nothing. *)
Definition write2grid (format_ : string) (t : dtype) (var : pyval) (endl : bool)
  : io unit :=
  fun file_ =>
    if String.eqb format_ "binary" then
      match struct_pack t var with
      | inl e => (inl e, file_)
      | inr b => (inr tt, file_write file_ (Packed b))
      end
    else if String.eqb format_ "ascii" then
      (inr tt, file_write file_ (Text var endl))
    else (inr tt, file_).

(** ** zeus2polaris *)

Definition nghost : nat := 3.

(** The six coordinate arrays, ghost cells removed. *)
Record grid : Type := mkGrid {
  r_e : list float;
  th_e : list float;
  ph_e : list float;
  r_c : list float;
  th_c : list float;
  ph_c : list float
}.

Definition dr (g : grid) : list float := np_diff (r_e g).
Definition dth (g : grid) : list float := np_diff (th_e g).
Definition dph (g : grid) : list float := np_diff (ph_e g).
Definition n_r (g : grid) : nat := length (r_e g).
Definition n_th (g : grid) : nat := length (th_e g).
Definition n_ph (g : grid) : nat := length (ph_e g).
Definition n_cells (g : grid) : nat := n_r g * n_th g * n_ph g.
Definition shape (g : grid) : nat * nat * nat :=
  (n_r g + 2 * nghost, n_ph g + 2 * nghost, n_th g + 2 * nghost).

(** The seven physical quantities, one value per cell. *)
Record fields : Type := mkFields {
  rho : list float;
  Vr : list float;
  Vph : list float;
  Vth : list float;
  Br : list float;
  Bph : list float;
  Bth : list float
}.

(** Lines 121-126: the cell edges and centres. *)
Definition read_grid (fs : store) : result grid :=
  let trim := Some (Z.of_nat nghost) in
  r_e <- read_data fs "z_x1ap" None true trim (-1) ;;
  th_e <- read_data fs "z_x2ap" None true trim (-1) ;;
  ph_e <- read_data fs "z_x3ap" None true trim (-1) ;;
  r_c <- read_data fs "z_x1bp" None true trim (-1) ;;
  th_c <- read_data fs "z_x2bp" None true trim (-1) ;;
  ph_c <- read_data fs "z_x3bp" None true trim (-1) ;;
  ret (mkGrid (np_ravel r_e) (np_ravel th_e) (np_ravel ph_e)
              (np_ravel r_c) (np_ravel th_c) (np_ravel ph_c)).

(** Lines 142-148: the physical quantities of frame [nframe]. *)
Definition read_fields (fs : store) (nframe : string) (shape : nat * nat * nat)
  : result fields :=
  let trim := Some (Z.of_nat nghost) in
  rho <- read_data fs ("o_d__" ++ nframe)%string (Some shape) true trim (-1) ;;
  Vr <- read_data fs ("o_v1_" ++ nframe)%string (Some shape) true trim (-1) ;;
  Vph <- read_data fs ("o_v2_" ++ nframe)%string (Some shape) true trim (-1) ;;
  Vth <- read_data fs ("o_v3_" ++ nframe)%string (Some shape) true trim (-1) ;;
  Br <- read_data fs ("o_b1_" ++ nframe)%string (Some shape) true trim (-1) ;;
  Bph <- read_data fs ("o_b2_" ++ nframe)%string (Some shape) true trim (-1) ;;
  Bth <- read_data fs ("o_b3_" ++ nframe)%string (Some shape) true trim (-1) ;;
  ret (mkFields (np_ravel rho) (np_ravel Vr) (np_ravel Vph) (np_ravel Vth)
                (np_ravel Br) (np_ravel Bph) (np_ravel Bth)).

(** [V != c], element by element. *)
Definition np_ne (V : list float) (c : float) : list bool :=
  map (fun v => negb (v =? c)%float) V.

(** [np.where(cond, x, y)] with an array [x] and a scalar [y]. *)
Definition np_where (cond : list bool) (x : list float) (y : float) : list float :=
  map (fun cv : bool * float => if fst cv then snd cv else y) (combine cond x).

(** [B * c], element by element. *)
Definition np_mul (B : list float) (c : float) : list float :=
  map (fun b => (b * c)%float) B.

Definition minvel : float := 1e-5.
Definition np_pi : float := 3.141592653589793.

(** [np.sqrt(4*np.pi)] *)
Definition sqrt_4pi : float := sqrt (4 * np_pi)%float.

(** Lines 156-164: the velocity floor and the change of unit system. *)
Definition preprocess (q : fields) : fields :=
  let Vr' := np_where (np_ne (Vr q) 0%float) (Vr q) minvel in
  let Vph' := np_where (np_ne (Vph q) 0%float) (Vph q) minvel in
  let Vth' := np_where (np_ne (Vth q) 0%float) (Vth q) minvel in
  let Br' := np_mul (Br q) sqrt_4pi in
  let Bth' := np_mul (Bth q) sqrt_4pi in
  let Bph' := np_mul (Bph q) sqrt_4pi in
  mkFields (rho q) Vr' Vph' Vth' Br' Bph' Bth'.

(** Lines 167-171: the constants of the POLARIS grid. *)
Definition id_grid : Z := 30.
Definition IDs : list Z := [28; 29]%Z.
Definition f_r : Z := 0.
Definition f_ph : Z := 0.
Definition f_th : Z := 0.

Definition dquote : string := String (ascii_of_nat 34) EmptyString.

(** Lines 174-183: the output file is opened by the two recognised formats
    only.  This is the [open] that succeeds; [zeus2polaris_opening] below
    is the run where it may raise. *)
Definition open_grid (output_grid grid_format : string) : result file :=
  let func_name := ("[" ++ "zeus2polaris" ++ "] ")%string in
  if String.eqb grid_format "binary" then
    ret (open_ (output_grid ++ ".dat")%string "wb")
  else if String.eqb grid_format "ascii" then
    ret (open_ (output_grid ++ ".txt")%string "w")
  else
    raise (ValueError (func_name ++ "grid_format must be either "
             ++ dquote ++ "binary" ++ dquote ++ " or "
             ++ dquote ++ "ascii" ++ dquote ++ ".")%string).

Local Open Scope io_scope.

(** Lines 190-194: grid identifier, number of quantities, their IDs. *)
Definition write_header (grid_format : string) : io unit :=
  write2grid grid_format fmt_H (PyInt id_grid) true ;;
  write2grid grid_format fmt_H (PyInt (Z.of_nat (length IDs))) true ;;
  for_each IDs (fun q => write2grid grid_format fmt_H (PyInt q) true).

(** Lines 198-207: radii, cell counts and shape parameters. *)
Definition write_parameters (fs : store) (g : grid) (grid_format : string)
  : io unit :=
  r0 <- lift (py_index (r_e g) 0) ;;
  write2grid grid_format fmt_d (PyFloat r0) false ;;
  x1ap <- lift (read_data fs "z_x1ap" None true None (-1)) ;;
  r1 <- lift (py_index (np_ravel x1ap) (- Z.of_nat nghost)) ;;
  write2grid grid_format fmt_d (PyFloat r1) true ;;
  write2grid grid_format fmt_H (PyInt (Z.of_nat (n_r g))) false ;;
  write2grid grid_format fmt_H (PyInt (Z.of_nat (n_ph g))) false ;;
  write2grid grid_format fmt_H (PyInt (Z.of_nat (n_th g))) true ;;
  write2grid grid_format fmt_d (PyInt f_r) true ;;
  write2grid grid_format fmt_d (PyInt f_ph) true ;;
  write2grid grid_format fmt_d (PyInt f_th) true.

(** One of the three loops of lines 210-223: the edges after the first,
    and in ascii mode an empty token that ends the line. *)
Definition write_edges (edges : list float) (grid_format : string) : io unit :=
  for_each (skipn 1 edges)
    (fun x => write2grid grid_format fmt_d (PyFloat x) false) ;;
  if String.eqb grid_format "ascii"
  then write2grid "ascii" fmt_d (PyStr EmptyString) true
  else io_ret tt.

(** Lines 226-229: the two values of every cell. *)
Definition write_cells (g : grid) (q : fields) (grid_format : string) : io unit :=
  for_each (seq 0 (n_cells g)) (fun cell =>
    x <- lift (py_index (rho q) (Z.of_nat cell)) ;;
    write2grid grid_format fmt_d (PyFloat x) false ;;
    y <- lift (py_index (rho q) (Z.of_nat cell)) ;;
    write2grid grid_format fmt_d (PyFloat (0.01 * y)%float) true).

(** Lines 232-233: the central cell. *)
Definition write_central_cell (grid_format : string) : io unit :=
  write2grid grid_format fmt_d (PyInt 0) false ;;
  write2grid grid_format fmt_d (PyInt 0) true.

(** Lines 190-235. *)
Definition write_grid (fs : store) (g : grid) (q : fields) (grid_format : string)
  : io unit :=
  write_header grid_format ;;
  write_parameters fs g grid_format ;;
  write_edges (r_e g) grid_format ;;
  write_edges (ph_e g) grid_format ;;
  write_edges (th_e g) grid_format ;;
  write_cells g q grid_format ;;
  write_central_cell grid_format ;;
  fun file_ => (inr tt, file_close file_).

Local Close Scope io_scope.

(** Lines 119-164: everything that happens before the output is opened. *)
Definition load (fs : store) (nframe : string) : result (grid * fields) :=
  g <- read_grid fs ;;
  q <- read_fields fs nframe (shape g) ;;
  ret (g, preprocess q).

(** [zeus2polaris(nframe, output_grid, verbose, grid_format)]: the exception
    raised, if any, and the output file, if one was opened. *)
Definition zeus2polaris (fs : store) (nframe output_grid : string)
    (verbose : bool) (grid_format : string) : result unit * option file :=
  match load fs nframe with
  | inl e => (inl e, None)
  | inr (g, q) =>
      match open_grid output_grid grid_format with
      | inl e => (inl e, None)
      | inr file_ =>
          let '(r, file') := write_grid fs g q grid_format file_ in
          (r, Some file')
      end
  end.

(** ** What a successful run leaves in the file *)

Definition file_append (file_ : file) (l : list item) : file :=
  mkFile (name file_) (mode file_) (contents file_ ++ l) (closed file_).

(** [m] raises nothing and appends exactly [l]. *)
Definition writes (m : io unit) (l : list item) : Prop :=
  forall file_, m file_ = (inr tt, file_append file_ l).

Definition valid_format (grid_format : string) : Prop :=
  grid_format = "binary" \/ grid_format = "ascii".

Definition is_binary (grid_format : string) : bool :=
  String.eqb grid_format "binary".

(** The field left by a write of an integer with format "H". *)
Definition ushort_item (grid_format : string) (n : Z) (endl : bool) : item :=
  if is_binary grid_format then Packed (UShort n) else Text (PyInt n) endl.

(** The field left by a write of a numpy double with format "d". *)
Definition double_item (grid_format : string) (x : float) (endl : bool) : item :=
  if is_binary grid_format then Packed (Double x) else Text (PyFloat x) endl.

(** The field left by a write of the Python int [0] with format "d". *)
Definition zero_item (grid_format : string) (endl : bool) : item :=
  if is_binary grid_format then Packed (Double 0) else Text (PyInt 0) endl.

Definition header_items (grid_format : string) : list item :=
  [ushort_item grid_format 30 true; ushort_item grid_format 2 true;
   ushort_item grid_format 28 true; ushort_item grid_format 29 true].

Definition parameter_items (grid_format : string) (inner outer : float)
    (nr nph nth : nat) : list item :=
  [double_item grid_format inner false; double_item grid_format outer true;
   ushort_item grid_format (Z.of_nat nr) false;
   ushort_item grid_format (Z.of_nat nph) false;
   ushort_item grid_format (Z.of_nat nth) true;
   zero_item grid_format true; zero_item grid_format true;
   zero_item grid_format true].

Definition edge_items (grid_format : string) (edges : list float) : list item :=
  map (fun x => double_item grid_format x false) (skipn 1 edges)
  ++ (if is_binary grid_format then [] else [Text (PyStr EmptyString) true]).

(** The record of one cell whose gas density is [x]. *)
Definition cell_record (grid_format : string) (x : float) : list item :=
  [double_item grid_format x false;
   double_item grid_format (0.01 * x)%float true].

Definition cell_records (grid_format : string) (rho : list float) (n : nat)
  : list (list item) :=
  map (fun cell => cell_record grid_format (nth cell rho 0%float)) (seq 0 n).

Definition central_cell (grid_format : string) : list item :=
  [zero_item grid_format false; zero_item grid_format true].

(** The counts fit the two bytes of format "H" (binary mode only). *)
Definition counts_fit (grid_format : string) (g : grid) : Prop :=
  grid_format = "binary" ->
  (Z.of_nat (n_r g) <= 65535 /\ Z.of_nat (n_ph g) <= 65535
   /\ Z.of_nat (n_th g) <= 65535)%Z.

(** ** What a successful load has read *)

(** The flat array [read_data] returns for a volume of shape [sh] trimmed by
    [t] on every axis. *)
Definition trimmed_volume (src : list float) (sh : nat * nat * nat) (t : Z)
  : list float :=
  ravel3 (swapaxes12 (slice3 t (- t)
            (mkArray3 src 0 sh (1, fst (fst sh), fst (fst sh) * snd (fst sh))))).

(** Everything a run writes, in order. *)
Definition grid_items (grid_format : string) (g : grid) (q : fields)
    (inner outer : float) : list item :=
  header_items grid_format
  ++ parameter_items grid_format inner outer (n_r g) (n_ph g) (n_th g)
  ++ edge_items grid_format (r_e g)
  ++ edge_items grid_format (ph_e g)
  ++ edge_items grid_format (th_e g)
  ++ concat (cell_records grid_format (rho q) (n_cells g))
  ++ central_cell grid_format.

(** [l] is the content of [name] without its ghost cells. *)
Definition edges_from (fs : store) (name : string) (l : list float) : Prop :=
  exists src, fs name = Some src
              /\ l = py_slice (Z.of_nat nghost) (- Z.of_nat nghost) src.

(** [l] is the content of [name], a volume of shape [sh], without its ghost
    cells. *)
Definition volume_from (fs : store) (name : string) (sh : nat * nat * nat)
    (l : list float) : Prop :=
  exists src, fs name = Some src
              /\ length src = fst (fst sh) * snd (fst sh) * snd sh
              /\ l = trimmed_volume src sh (Z.of_nat nghost).

Definition output_name (output_grid grid_format : string) : string :=
  (output_grid ++ (if is_binary grid_format then ".dat" else ".txt"))%string.

Definition output_mode (grid_format : string) : string :=
  if is_binary grid_format then "wb" else "w".

Definition extends (f1 f2 : file) : Prop :=
  exists l, contents f2 = contents f1 ++ l.

Definition appends {A : Type} (m : io A) : Prop :=
  forall file_, extends file_ (snd (m file_)).

(** ** The velocity floor and the magnetic-field factor *)

(** [V'] is [V] with every zero replaced by [minvel]: nothing else changes,
    and no zero is left. *)
Definition floor_applied (V V' : list float) : Prop :=
  length V' = length V
  /\ forall i, i < length V ->
       ((nth i V 0 =? 0) = true -> nth i V' 0 = minvel)%float
       /\ ((nth i V 0 =? 0) = false -> nth i V' 0 = nth i V 0)%float
       /\ (nth i V' 0 =? 0)%float = false.

(** [B'] is [B] with every element multiplied by [np.sqrt(4*np.pi)]. *)
Definition scaled_by_sqrt_4pi (B B' : list float) : Prop :=
  length B' = length B
  /\ forall i, i < length B ->
       nth i B' 0%float = (nth i B 0 * sqrt (4 * 3.141592653589793))%float.

(** ** A concrete frame: ten edges per axis, a 10 x 10 x 10 volume *)

(** A store given by the list of its files. *)
Definition files (l : list (string * list float)) : store :=
  fun name =>
    match find (fun p => String.eqb (fst p) name) l with
    | Some p => Some (snd p)
    | None => None
    end.

Definition scenario_edges : list float :=
  map float_of_int [0; 1; 2; 3; 4; 5; 6; 7; 8; 9]%Z.

Definition scenario_density : list float :=
  map (fun n => float_of_int (Z.of_nat n)) (seq 0 1000).

Definition scenario_velocity : list float :=
  map (fun n => float_of_int (Z.of_nat (n mod 2))) (seq 0 1000).

Definition scenario_store : store :=
  files [("z_x1ap", scenario_edges); ("z_x2ap", scenario_edges);
         ("z_x3ap", scenario_edges); ("z_x1bp", scenario_edges);
         ("z_x2bp", scenario_edges); ("z_x3bp", scenario_edges);
         ("o_d__00001", scenario_density);
         ("o_v1_00001", scenario_velocity); ("o_v2_00001", scenario_velocity);
         ("o_v3_00001", scenario_velocity);
         ("o_b1_00001", scenario_density); ("o_b2_00001", scenario_density);
         ("o_b3_00001", scenario_density)].

(** The same frame with other velocity and magnetic-field files. *)
Definition scenario_store' : store :=
  files [("z_x1ap", scenario_edges); ("z_x2ap", scenario_edges);
         ("z_x3ap", scenario_edges); ("z_x1bp", scenario_edges);
         ("z_x2bp", scenario_edges); ("z_x3bp", scenario_edges);
         ("o_d__00001", scenario_density);
         ("o_v1_00001", scenario_density); ("o_v2_00001", scenario_density);
         ("o_v3_00001", scenario_density);
         ("o_b1_00001", scenario_velocity); ("o_b2_00001", scenario_velocity);
         ("o_b3_00001", scenario_velocity)].

Definition scenario_loaded : grid * fields :=
  Eval vm_compute in
    match load scenario_store "00001" with
    | inr x => x
    | inl _ => (mkGrid [] [] [] [] [] [], mkFields [] [] [] [] [] [] [])
    end.

Definition scenario_loaded' : grid * fields :=
  Eval vm_compute in
    match load scenario_store' "00001" with
    | inr x => x
    | inl _ => (mkGrid [] [] [] [] [] [], mkFields [] [] [] [] [] [] [])
    end.

(** The two fields that follow the header. *)
Definition radii_written (file_ : file) : option (item * item) :=
  match skipn (2 + length IDs) (contents file_) with
  | a :: b :: _ => Some (a, b)
  | _ => None
  end.

(** A store with one file. *)
Definition single_file (name : string) (content : list float) : store :=
  fun s => if String.eqb s name then Some content else None.

(** ** The rest of the module: the entry point *)

(** ['0' * n] *)
Fixpoint zeros (n : nat) : string :=
  match n with
  | 0 => EmptyString
  | S n' => String "0" (zeros n')
  end.

(** [s.zfill(width)]: zeros on the left up to [width] characters, after the
    sign when [s] starts with one. *)
Definition zfill (width : nat) (s : string) : string :=
  let n := String.length s in
  if Nat.leb width n then s
  else
    let fill := zeros (width - n) in
    match s with
    | String c rest =>
        if (Ascii.eqb c "+" || Ascii.eqb c "-")%bool
        then String c (fill ++ rest)%string
        else (fill ++ s)%string
    | EmptyString => fill
    end.

(** [zeus2polaris] with the [open] of lines 176 and 180 allowed to fail:
    [open_error path] is the exception [open(path, mode)] raises, if any
    (a directory that does not exist, a path that may not be written).  The
    name is built first, the file is opened next, and nothing is written
    when the open raises.  [zeus2polaris] above is the run whose output
    can be opened. *)
Definition zeus2polaris_opening (open_error : string -> option exn)
    (fs : store) (nframe output_grid : string) (verbose : bool)
    (grid_format : string) : result unit * option file :=
  match load fs nframe with
  | inl e => (inl e, None)
  | inr (g, q) =>
      match open_grid output_grid grid_format with
      | inl e => (inl e, None)
      | inr file_ =>
          match open_error (name file_) with
          | Some e => (inl e, None)
          | None =>
              let '(r, file') := write_grid fs g q grid_format file_ in
              (r, Some file')
          end
      end
  end.

(** The [open] of a system where the directory [dir] does not exist:
    FileNotFoundError, an OSError like the IOError of [read_data]. *)
Definition missing_directory (dir : string) (path : string) : option exn :=
  if String.prefix dir path
  then Some (IOError ("[Errno 2] No such file or directory: '"
                      ++ path ++ "'")%string)
  else None.

(** Lines 246-254: the frame number is [sys.argv[1]] or, without argument,
    the line typed at the prompt ([typed]); the grid is always written in
    ascii, under [polaris_grid/]. *)
Definition main (open_error : string -> option exn) (fs : store)
    (argv : list string) (typed : string) : result unit * option file :=
  let nframe :=
    if Nat.ltb 1 (length argv)
    then zfill 5 (nth 1 argv EmptyString)
    else zfill 5 typed in
  let output_grid := ("polaris_grid/lmd2.4-1k-Slw_" ++ nframe)%string in
  zeus2polaris_opening open_error fs nframe output_grid true "ascii".

(** ** The rest of the module: the catalogue of quantities *)

(** [physical_quantity.descriptions] *)
Definition descriptions : list (Z * string) :=
  [(0, "gas number density"); (1, "dust number density");
   (2, "dust temperature"); (3, "gas temperature");
   (4, "mag. field x-direction"); (5, "mag. field y-direction");
   (6, "mag. field z-direction"); (7, "vel. field x-direction");
   (8, "vel. field y-direction"); (9, "vel. field z-direction");
   (10, "rad. pressure x-direction"); (11, "rad. pressure y-direction");
   (12, "rad. pressure z-direction"); (13, "dust grain alignment radius");
   (14, "min. dust grain radius"); (15, "max. dust grain radius");
   (16, "exponent of the grain size distribution");
   (17, "number fraction of a gas species"); (18, "turbulent gas velocity");
   (19, "PDA photon count"); (20, "ID for the opiate database");
   (21, "ID for dust composition");
   (22, "number density of thermal electrons");
   (23, "Tgaserature of thermal electrons");
   (24, "number density of cosmic ray electrons");
   (25, "min. Lorentz factor"); (26, "max. Lorentz factor");
   (27, "power-law index of cosmic ray electrons");
   (28, "gas mass density"); (29, "dust mass density");
   (30, "rad. field density in x-direction");
   (31, "rad. field density in y-direction");
   (32, "rad. field density in z-direction");
   (33, "total rad. field density");
   (34, "average angle between rad. and mag. field");
   (35, "anisotropy factor of the rad. field")]%Z.

(** [d[key]] for a dict given by its items; [None] stands for KeyError. *)
Fixpoint dict_get (d : list (Z * string)) (key : Z) : option string :=
  match d with
  | [] => None
  | (k, v) :: rest => if (k =? key)%Z then Some v else dict_get rest key
  end.

(** ** Reading the output back *)

(** The number a field stands for; the empty token that ends a line of
    edges stands for none. *)
Definition item_value (x : item) : option float :=
  match x with
  | Packed (UShort n) => Some (float_of_int n)
  | Packed (Double v) => Some v
  | Text (PyInt n) _ => Some (float_of_int n)
  | Text (PyFloat v) _ => Some v
  | Text (PyStr _) _ => None
  end.

Definition item_values (l : list item) : list float :=
  flat_map (fun x => match item_value x with Some v => [v] | None => [] end) l.

(** The bytes a field takes in a binary file ([struct.calcsize]). *)
Definition item_bytes (x : item) : nat :=
  match x with
  | Packed b => packed_size b
  | Text _ _ => 0
  end.

Definition file_bytes (l : list item) : nat := list_sum (map item_bytes l).

(** The lines of an ascii file: the fields written with [endl=True]. *)
Definition is_line_end (x : item) : bool :=
  match x with
  | Text _ endl => endl
  | Packed _ => false
  end.

Definition file_lines (l : list item) : nat := length (filter is_line_end l).

(** ** The input files of a frame, in the order they are read *)

Definition coordinate_files : list string :=
  ["z_x1ap"; "z_x2ap"; "z_x3ap"; "z_x1bp"; "z_x2bp"; "z_x3bp"].

Definition volume_files (nframe : string) : list string :=
  map (fun tag => (tag ++ nframe)%string)
      ["o_d__"; "o_v1_"; "o_v2_"; "o_v3_"; "o_b1_"; "o_b2_"; "o_b3_"].


(** The exception [read_data] raises for a file that is not there. *)
Definition missing_file_error (filename : string) : exn :=
  IOError ("[read_data] " ++ filename
           ++ " does not exists or cannot be read.")%string.

(** The exception [reshape] raises for [n] values and the shape [sh]. *)
Definition reshape_error (n : nat) (sh : nat * nat * nat) : exn :=
  ValueError ("cannot reshape array of size "
              ++ str_int (Z.of_nat n) ++ " into shape ("
              ++ str_int (Z.of_nat (fst (fst sh))) ++ ","
              ++ str_int (Z.of_nat (snd (fst sh))) ++ ","
              ++ str_int (Z.of_nat (snd sh)) ++ ")")%string.

(** The edges of [name] without their ghost cells, read off the store. *)
Definition frame_edges (fs : store) (name : string) : list float :=
  py_slice (Z.of_nat nghost) (- Z.of_nat nghost) (open_rb fs name).

(** The padded shape [zeus2polaris] computes from the three edge files. *)
Definition frame_shape (fs : store) : nat * nat * nat :=
  (length (frame_edges fs "z_x1ap") + 2 * nghost,
   length (frame_edges fs "z_x3ap") + 2 * nghost,
   length (frame_edges fs "z_x2ap") + 2 * nghost).


(** The number of fields of the geometry record that a binary run writes
    before the first count that does not fit two bytes: the two radii and
    the counts before it. *)
Definition fields_before_overflow (g : grid) : nat :=
  if (65535 <? Z.of_nat (n_r g))%Z then 2
  else if (65535 <? Z.of_nat (n_ph g))%Z then 3
  else 4.

(** A frame with 65536 radial cells and no cell on the two other axes. *)
Definition wide_edges : list float := repeat 0%float (Z.to_nat 65542).

Definition wide_volume : list float :=
  repeat 0%float (Z.to_nat 65542 * 6 * 6).

Definition wide_store : store :=
  fun name =>
    if (String.eqb name "z_x1ap" || String.eqb name "z_x1bp")%bool
    then Some wide_edges
    else if (String.eqb name "z_x2ap" || String.eqb name "z_x3ap"
             || String.eqb name "z_x2bp" || String.eqb name "z_x3bp")%bool
    then Some (repeat 0%float 6)
    else if existsb (String.eqb name) (volume_files "00001")
    then Some wide_volume
    else None.

Definition wide_grid : grid :=
  mkGrid (frame_edges wide_store "z_x1ap") (frame_edges wide_store "z_x2ap")
         (frame_edges wide_store "z_x3ap") (frame_edges wide_store "z_x1bp")
         (frame_edges wide_store "z_x2bp") (frame_edges wide_store "z_x3bp").

Definition wide_fields : fields :=
  let v := trimmed_volume wide_volume (frame_shape wide_store) (Z.of_nat nghost) in
  preprocess (mkFields v v v v v v v).

(** The numbers of a finished grid file, in the order they are written. *)
Definition grid_values (g : grid) (q : fields) (inner outer : float)
  : list float :=
  map float_of_int [30; 2; 28; 29]%Z
  ++ [inner; outer; float_of_int (Z.of_nat (n_r g));
      float_of_int (Z.of_nat (n_ph g)); float_of_int (Z.of_nat (n_th g));
      0%float; 0%float; 0%float]
  ++ skipn 1 (r_e g) ++ skipn 1 (ph_e g) ++ skipn 1 (th_e g)
  ++ flat_map (fun cell => [nth cell (rho q) 0; 0.01 * nth cell (rho q) 0]%float)
       (seq 0 (n_cells g))
  ++ [0%float; 0%float].

(** A frame with an empty grid: six edges per axis, all of them ghosts. *)
Definition empty_store : store :=
  files [("z_x1ap", repeat 0%float 6); ("z_x2ap", repeat 0%float 6);
         ("z_x3ap", repeat 0%float 6); ("z_x1bp", repeat 0%float 6);
         ("z_x2bp", repeat 0%float 6); ("z_x3bp", repeat 0%float 6);
         ("o_d__00001", repeat 0%float 216); ("o_v1_00001", repeat 0%float 216);
         ("o_v2_00001", repeat 0%float 216); ("o_v3_00001", repeat 0%float 216);
         ("o_b1_00001", repeat 0%float 216); ("o_b2_00001", repeat 0%float 216);
         ("o_b3_00001", repeat 0%float 216)].

Definition empty_loaded : grid * fields :=
  Eval vm_compute in
    match load empty_store "00001" with
    | inr x => x
    | inl _ => (mkGrid [] [] [] [] [] [], mkFields [] [] [] [] [] [] [])
    end.

(** ** Slices *)

Lemma slice_bounds_margin (n m : nat) :
  0 < m -> 2 * m <= n ->
  slice_bounds n (Z.of_nat m) (- Z.of_nat m) = (m, n - 2 * m).
Proof.
  intros Hm Hn. unfold slice_bounds, clamp_index.
  destruct (Z.ltb_spec (Z.of_nat m) 0) as [H|H]; [lia|].
  destruct (Z.ltb_spec (- Z.of_nat m) 0) as [H'|H']; [|lia].
  f_equal; lia.
Qed.

Lemma slice_bounds_length (n m : nat) :
  0 < m -> snd (slice_bounds n (Z.of_nat m) (- Z.of_nat m)) = n - 2 * m.
Proof.
  intros Hm. unfold slice_bounds, clamp_index. cbn [snd].
  destruct (Z.ltb_spec (Z.of_nat m) 0) as [H|H]; [lia|].
  destruct (Z.ltb_spec (- Z.of_nat m) 0) as [H'|H']; [|lia].
  lia.
Qed.

Lemma slice_bounds_zero (n : nat) : slice_bounds n 0 (- 0) = (0, 0).
Proof.
  unfold slice_bounds, clamp_index. simpl.
  f_equal; lia.
Qed.

Lemma py_slice_margin {A : Type} (m : nat) (l : list A) :
  0 < m -> 2 * m <= length l ->
  py_slice (Z.of_nat m) (- Z.of_nat m) l = firstn (length l - 2 * m) (skipn m l).
Proof.
  intros Hm Hn. unfold py_slice. rewrite slice_bounds_margin by assumption.
  reflexivity.
Qed.

Lemma py_slice_margin_length {A : Type} (m : nat) (l : list A) :
  0 < m ->
  length (py_slice (Z.of_nat m) (- Z.of_nat m) l) = length l - 2 * m.
Proof.
  intros Hm. unfold py_slice, slice_bounds.
  rewrite length_firstn, length_skipn. unfold clamp_index.
  destruct (Z.ltb_spec (Z.of_nat m) 0) as [H|H]; [lia|].
  destruct (Z.ltb_spec (- Z.of_nat m) 0) as [H'|H']; [|lia].
  lia.
Qed.

(** ** Row-major flattening *)

Section FlatMapSeq.
Context {B : Type}.
Variable g : nat -> list B.
Variable L : nat.
Hypothesis g_length : forall x, length (g x) = L.

Lemma flat_map_seq_length (s n : nat) :
  length (flat_map g (seq s n)) = n * L.
Proof.
  revert s. induction n as [|n IH]; intros s; simpl; [reflexivity|].
  rewrite length_app, g_length, IH. reflexivity.
Qed.

Lemma flat_map_seq_nth (s n i r : nat) (d : B) :
  i < n -> r < L ->
  nth (i * L + r) (flat_map g (seq s n)) d = nth r (g (s + i)) d.
Proof.
  revert s i. induction n as [|n IH]; intros s i Hi Hr; [lia|].
  simpl. destruct i as [|i].
  - rewrite app_nth1 by (rewrite g_length; lia).
    rewrite Nat.add_0_r. reflexivity.
  - rewrite app_nth2 by (rewrite g_length; lia).
    rewrite g_length.
    replace (S i * L + r - L) with (i * L + r) by lia.
    rewrite IH by lia. f_equal. f_equal. lia.
Qed.
End FlatMapSeq.

Lemma ravel3_length (a : array3) :
  length (ravel3 a)
  = fst (fst (shape3 a)) * (snd (fst (shape3 a)) * snd (shape3 a)).
Proof.
  unfold ravel3. destruct (shape3 a) as [[d0 d1] d2]. cbn [fst snd].
  apply flat_map_seq_length. intros i.
  apply flat_map_seq_length. intros j.
  rewrite length_map, length_seq. reflexivity.
Qed.

Lemma ravel3_nth (a : array3) (i j k : nat) :
  i < fst (fst (shape3 a)) -> j < snd (fst (shape3 a)) -> k < snd (shape3 a) ->
  nth ((i * snd (fst (shape3 a)) + j) * snd (shape3 a) + k) (ravel3 a) 0%float
  = item3 a i j k.
Proof.
  unfold ravel3. destruct (shape3 a) as [[d0 d1] d2]. cbn [fst snd].
  intros Hi Hj Hk.
  replace ((i * d1 + j) * d2 + k) with (i * (d1 * d2) + (j * d2 + k)) by lia.
  rewrite flat_map_seq_nth with (L := d1 * d2); [| | assumption | nia].
  - rewrite flat_map_seq_nth with (L := d2); [| | assumption | assumption].
    + simpl. rewrite nth_indep with (d' := item3 a i j 0)
        by (rewrite length_map, length_seq; assumption).
      rewrite map_nth, seq_nth by assumption. reflexivity.
    + intros y. rewrite length_map, length_seq. reflexivity.
  - intros x. apply flat_map_seq_length.
    intros y. rewrite length_map, length_seq. reflexivity.
Qed.

(** ** read_data, case by case *)

Lemma read_data_missing (fs : store) (filename : string)
    (shape : option (nat * nat * nat)) (unshape : bool) (trim : option Z)
    (entries : Z) :
  fs filename = None ->
  read_data fs filename shape unshape trim entries
  = inl (IOError ("[read_data] " ++ filename
                  ++ " does not exists or cannot be read.")%string).
Proof. intros H. unfold read_data, isfile, open_rb. rewrite H. reflexivity. Qed.

Lemma read_data_untrimmed (fs : store) (filename : string) (src : list float) :
  fs filename = Some src ->
  read_data fs filename None true None (-1) = inr (Arr1 src).
Proof. intros H. unfold read_data, isfile, open_rb. rewrite H. reflexivity. Qed.

Lemma read_data_line (fs : store) (filename : string) (src : list float) (t : Z) :
  fs filename = Some src ->
  read_data fs filename None true (Some t) (-1)
  = inr (Arr1 (py_slice t (- t) src)).
Proof. intros H. unfold read_data, isfile, open_rb. rewrite H. reflexivity. Qed.

Lemma read_data_volume (fs : store) (filename : string) (src : list float)
    (d0 d1 d2 : nat) (t : Z) :
  fs filename = Some src ->
  length src = d0 * d1 * d2 ->
  read_data fs filename (Some (d0, d1, d2)) true (Some t) (-1)
  = inr (Arr1 (trimmed_volume src (d0, d1, d2) t)).
Proof.
  intros H Hlen. unfold read_data, isfile, open_rb. rewrite H. cbn [negb].
  unfold np_fromfile, reshape_F. simpl Z.ltb. cbv iota.
  rewrite <- Hlen, Nat.eqb_refl. reflexivity.
Qed.

Lemma reshape_F_mismatch (data : list float) (d0 d1 d2 : nat) :
  d0 * d1 * d2 <> length data ->
  exists e, reshape_F data (d0, d1, d2) = inl e.
Proof.
  intros H. unfold reshape_F. apply Nat.eqb_neq in H. rewrite H.
  eexists. reflexivity.
Qed.

Lemma read_data_line_inv (fs : store) (filename : string) (t : Z) (a : ndarray) :
  read_data fs filename None true (Some t) (-1) = inr a ->
  exists src, fs filename = Some src /\ a = Arr1 (py_slice t (- t) src).
Proof.
  intros H. destruct (fs filename) as [src|] eqn:E.
  - rewrite (read_data_line _ _ _ _ E) in H. inversion H. eauto.
  - rewrite read_data_missing in H by assumption. discriminate.
Qed.

Lemma read_data_volume_inv (fs : store) (filename : string)
    (d0 d1 d2 : nat) (t : Z) (a : ndarray) :
  read_data fs filename (Some (d0, d1, d2)) true (Some t) (-1) = inr a ->
  exists src, fs filename = Some src /\ length src = d0 * d1 * d2
              /\ a = Arr1 (trimmed_volume src (d0, d1, d2) t).
Proof.
  intros H. destruct (fs filename) as [src|] eqn:E.
  - destruct (Nat.eq_dec (d0 * d1 * d2) (length src)) as [Hlen|Hlen].
    + rewrite (read_data_volume _ _ src d0 d1 d2 t E) in H by congruence.
      inversion H. eauto.
    + unfold read_data, isfile, open_rb in H. rewrite E in H. cbn [negb] in H.
      change (np_fromfile src (-1)) with src in H.
      destruct (reshape_F_mismatch src d0 d1 d2 Hlen) as [e He].
      rewrite He in H. discriminate.
  - rewrite read_data_missing in H by assumption. discriminate.
Qed.

(** The shape of a trimmed volume, axes 1 and 2 swapped. *)
Lemma trimmed_volume_length (src : list float) (d0 d1 d2 m : nat) :
  0 < m ->
  length (trimmed_volume src (d0, d1, d2) (Z.of_nat m))
  = (d0 - 2 * m) * ((d2 - 2 * m) * (d1 - 2 * m)).
Proof.
  intros Hm. unfold trimmed_volume. rewrite ravel3_length.
  unfold swapaxes12, slice3. cbn [shape3 strides fst snd].
  pose proof (slice_bounds_length d0 m Hm) as H0.
  pose proof (slice_bounds_length d1 m Hm) as H1.
  pose proof (slice_bounds_length d2 m Hm) as H2.
  destruct (slice_bounds d0 _ _) as [b0 n0].
  destruct (slice_bounds d1 _ _) as [b1 n1].
  destruct (slice_bounds d2 _ _) as [b2 n2].
  cbn [shape3 fst snd] in *. subst. reflexivity.
Qed.

(** Where each element of a trimmed volume comes from: output position
    [(i, k, j)] in row-major order holds the source element [(i+m, j+m, k+m)]
    in column-major order. *)
Lemma trimmed_volume_nth (src : list float) (d0 d1 d2 m i j k : nat) :
  0 < m ->
  i < d0 - 2 * m -> j < d1 - 2 * m -> k < d2 - 2 * m ->
  nth ((i * (d2 - 2 * m) + k) * (d1 - 2 * m) + j)
      (trimmed_volume src (d0, d1, d2) (Z.of_nat m)) 0%float
  = nth ((i + m) + d0 * ((j + m) + d1 * (k + m))) src 0%float.
Proof.
  intros Hm Hi Hj Hk. unfold trimmed_volume.
  unfold swapaxes12, slice3. cbn [shape3 strides fst snd buf offset].
  rewrite !slice_bounds_margin by lia.
  cbn [shape3 strides fst snd buf offset].
  set (a := mkArray3 _ _ _ _).
  change (d2 - 2 * m) with (snd (fst (shape3 a))).
  change (d1 - 2 * m) with (snd (shape3 a)) at 1.
  rewrite ravel3_nth by (subst a; cbn [shape3 fst snd]; assumption).
  subst a. unfold item3. cbn [strides buf offset].
  f_equal. nia.
Qed.

(** ** Integer indexing *)

Lemma py_index_nat (l : list float) (i : nat) :
  i < length l -> py_index l (Z.of_nat i) = inr (nth i l 0%float).
Proof.
  intros H. unfold py_index.
  destruct (Z.ltb_spec (Z.of_nat i) 0) as [H0|H0]; [lia|].
  destruct (Z.leb_spec 0 (Z.of_nat i)) as [H1|H1]; [|lia].
  destruct (Z.ltb_spec (Z.of_nat i) (Z.of_nat (length l))) as [H2|H2]; [|lia].
  cbn [andb]. rewrite Nat2Z.id. reflexivity.
Qed.

Lemma py_index_from_end (l : list float) (m : nat) :
  0 < m -> m <= length l ->
  py_index l (- Z.of_nat m) = inr (nth (length l - m) l 0%float).
Proof.
  intros Hm H. unfold py_index.
  destruct (Z.ltb_spec (- Z.of_nat m) 0) as [H0|H0]; [|lia].
  destruct (Z.leb_spec 0 (- Z.of_nat m + Z.of_nat (length l))) as [H1|H1]; [|lia].
  destruct (Z.ltb_spec (- Z.of_nat m + Z.of_nat (length l))
              (Z.of_nat (length l))) as [H2|H2]; [|lia].
  cbn [andb]. unfold ret. f_equal. f_equal. lia.
Qed.

(** ** Writes that succeed *)

Lemma file_append_app (file_ : file) (l1 l2 : list item) :
  file_append (file_append file_ l1) l2 = file_append file_ (l1 ++ l2).
Proof. unfold file_append. simpl. rewrite app_assoc. reflexivity. Qed.

Lemma file_append_nil (file_ : file) : file_append file_ [] = file_.
Proof. destruct file_. unfold file_append. simpl. rewrite app_nil_r. reflexivity. Qed.

Lemma writes_ret : writes (io_ret tt) [].
Proof. intros file_. unfold io_ret. rewrite file_append_nil. reflexivity. Qed.

Lemma writes_bind (m : io unit) (k : unit -> io unit) (l1 l2 : list item) :
  writes m l1 -> writes (k tt) l2 -> writes (io_bind m k) (l1 ++ l2).
Proof.
  intros H1 H2 file_. unfold io_bind. rewrite H1, H2.
  rewrite file_append_app. reflexivity.
Qed.

Lemma writes_then {A : Type} (m : io unit) (l : list item) :
  writes m l ->
  forall (k : unit -> io A) (file_ : file),
    io_bind m k file_ = k tt (file_append file_ l).
Proof. intros H k file_. unfold io_bind. rewrite H. reflexivity. Qed.

Lemma writes_lift {A : Type} (a : A) (k : A -> io unit) (l : list item) :
  writes (k a) l -> writes (io_bind (lift (inr a)) k) l.
Proof. intros H file_. unfold io_bind, lift. apply H. Qed.

Lemma writes_for_each {A : Type} (body : A -> io unit) (g : A -> list item)
    (l : list A) :
  (forall x, In x l -> writes (body x) (g x)) ->
  writes (for_each l body) (flat_map g l).
Proof.
  induction l as [|x l IH]; intros H; simpl.
  - apply writes_ret.
  - apply writes_bind.
    + apply H. left. reflexivity.
    + apply IH. intros y Hy. apply H. right. assumption.
Qed.

Lemma flat_map_singleton {A B : Type} (h : A -> B) (l : list A) :
  flat_map (fun x => [h x]) l = map h l.
Proof. induction l as [|x l IH]; simpl; [reflexivity | rewrite IH; reflexivity]. Qed.

Lemma struct_pack_zero : struct_pack fmt_d (PyInt 0) = inr (Double 0).
Proof. vm_compute. reflexivity. Qed.

Lemma write2grid_ushort (grid_format : string) (n : Z) (endl : bool) :
  valid_format grid_format ->
  (grid_format = "binary" -> 0 <= n <= 65535)%Z ->
  writes (write2grid grid_format fmt_H (PyInt n) endl)
         [ushort_item grid_format n endl].
Proof.
  intros [-> | ->] Hn file_; unfold write2grid, ushort_item, is_binary; simpl.
  - specialize (Hn eq_refl).
    destruct (Z.leb_spec 0 n); [|lia]. destruct (Z.leb_spec n 65535); [|lia].
    reflexivity.
  - reflexivity.
Qed.

Lemma write2grid_double (grid_format : string) (x : float) (endl : bool) :
  valid_format grid_format ->
  writes (write2grid grid_format fmt_d (PyFloat x) endl)
         [double_item grid_format x endl].
Proof.
  intros [-> | ->] file_; unfold write2grid, double_item, is_binary; reflexivity.
Qed.

Lemma write2grid_zero (grid_format : string) (endl : bool) :
  valid_format grid_format ->
  writes (write2grid grid_format fmt_d (PyInt 0) endl)
         [zero_item grid_format endl].
Proof.
  intros [-> | ->] file_; unfold write2grid, zero_item, is_binary.
  - change (String.eqb "binary" "binary") with true. cbv iota.
    rewrite struct_pack_zero. reflexivity.
  - reflexivity.
Qed.

Lemma write_header_writes (grid_format : string) :
  valid_format grid_format ->
  writes (write_header grid_format) (header_items grid_format).
Proof.
  intros Hv. unfold write_header, header_items.
  change [ushort_item grid_format 30 true; ushort_item grid_format 2 true;
          ushort_item grid_format 28 true; ushort_item grid_format 29 true]
    with ([ushort_item grid_format 30 true]
          ++ [ushort_item grid_format 2 true]
          ++ flat_map (fun q => [ushort_item grid_format q true]) IDs).
  apply writes_bind; [apply write2grid_ushort; [assumption | intros _; unfold id_grid; lia]|].
  apply writes_bind; [apply write2grid_ushort; [assumption | intros _; simpl; lia]|].
  apply writes_for_each. intros q Hq.
  apply write2grid_ushort; [assumption|].
  intros _. simpl in Hq. destruct Hq as [<- | [<- | []]]; lia.
Qed.

Lemma write_edges_writes (grid_format : string) (edges : list float) :
  valid_format grid_format ->
  writes (write_edges edges grid_format) (edge_items grid_format edges).
Proof.
  intros Hv. unfold write_edges, edge_items.
  apply writes_bind.
  - rewrite <- flat_map_singleton.
    apply writes_for_each. intros x _. apply write2grid_double. assumption.
  - unfold is_binary. destruct Hv as [-> | ->]; simpl.
    + apply writes_ret.
    + intros file_. reflexivity.
Qed.

Lemma write_parameters_writes (fs : store) (g : grid) (grid_format : string)
    (src : list float) (inner outer : float) :
  valid_format grid_format ->
  counts_fit grid_format g ->
  py_index (r_e g) 0 = inr inner ->
  fs "z_x1ap" = Some src ->
  py_index src (- Z.of_nat nghost) = inr outer ->
  writes (write_parameters fs g grid_format)
         (parameter_items grid_format inner outer (n_r g) (n_ph g) (n_th g)).
Proof.
  intros Hv Hfit Hin Hsrc Hout. unfold write_parameters, parameter_items.
  rewrite Hin. apply writes_lift.
  apply (writes_bind _ _ [_]); [apply write2grid_double; assumption|].
  rewrite (read_data_untrimmed _ _ _ Hsrc). apply writes_lift.
  cbn [np_ravel]. rewrite Hout. apply writes_lift.
  apply (writes_bind _ _ [_]); [apply write2grid_double; assumption|].
  apply (writes_bind _ _ [_]);
    [apply write2grid_ushort; [assumption | intros Hb; destruct (Hfit Hb); lia]|].
  apply (writes_bind _ _ [_]);
    [apply write2grid_ushort; [assumption | intros Hb; destruct (Hfit Hb); lia]|].
  apply (writes_bind _ _ [_]);
    [apply write2grid_ushort; [assumption | intros Hb; destruct (Hfit Hb); lia]|].
  apply (writes_bind _ _ [_]); [apply write2grid_zero; assumption|].
  apply (writes_bind _ _ [_]); [apply write2grid_zero; assumption|].
  apply write2grid_zero; assumption.
Qed.

Lemma write_cells_writes (g : grid) (q : fields) (grid_format : string) :
  valid_format grid_format ->
  n_cells g <= length (rho q) ->
  writes (write_cells g q grid_format)
         (concat (cell_records grid_format (rho q) (n_cells g))).
Proof.
  intros Hv Hlen. unfold write_cells, cell_records.
  rewrite <- flat_map_concat_map.
  apply writes_for_each. intros cell Hcell.
  apply in_seq in Hcell.
  rewrite py_index_nat by lia.
  apply writes_lift.
  apply (writes_bind _ _ [_]); [apply write2grid_double; assumption|].
  apply writes_lift. apply write2grid_double; assumption.
Qed.

Lemma write_central_cell_writes (grid_format : string) :
  valid_format grid_format ->
  writes (write_central_cell grid_format) (central_cell grid_format).
Proof.
  intros Hv. unfold write_central_cell, central_cell.
  apply (writes_bind _ _ [_]); apply write2grid_zero; assumption.
Qed.

Lemma write_grid_result (fs : store) (g : grid) (q : fields)
    (grid_format : string) (src : list float) (inner outer : float)
    (file_ : file) :
  valid_format grid_format ->
  counts_fit grid_format g ->
  py_index (r_e g) 0 = inr inner ->
  fs "z_x1ap" = Some src ->
  py_index src (- Z.of_nat nghost) = inr outer ->
  n_cells g <= length (rho q) ->
  write_grid fs g q grid_format file_
  = (inr tt, file_close (file_append file_ (grid_items grid_format g q inner outer))).
Proof.
  intros Hv Hfit Hin Hsrc Hout Hlen. unfold write_grid, grid_items.
  rewrite (writes_then _ _ (write_header_writes _ Hv)).
  rewrite (writes_then _ _
             (write_parameters_writes fs g _ src inner outer Hv Hfit Hin Hsrc Hout)).
  rewrite (writes_then _ _ (write_edges_writes _ (r_e g) Hv)).
  rewrite (writes_then _ _ (write_edges_writes _ (ph_e g) Hv)).
  rewrite (writes_then _ _ (write_edges_writes _ (th_e g) Hv)).
  rewrite (writes_then _ _ (write_cells_writes g q _ Hv Hlen)).
  rewrite (writes_then _ _ (write_central_cell_writes _ Hv)).
  rewrite !file_append_app. reflexivity.
Qed.

(** ** Inverting a successful load *)

Ltac invert_read H :=
  match type of H with
  | bind (read_data ?fs ?n None true ?t ?e) _ = inr _ =>
      let a := fresh "a" in
      let E := fresh "E" in
      destruct (read_data fs n None true t e) as [?|a] eqn:E;
      [discriminate H|];
      cbn [bind] in H;
      apply read_data_line_inv in E;
      let src := fresh "src" in
      destruct E as (src & ? & ->)
  | bind (read_data ?fs ?n (Some (?d0, ?d1, ?d2)) true ?t ?e) _ = inr _ =>
      let a := fresh "a" in
      let E := fresh "E" in
      destruct (read_data fs n (Some (d0, d1, d2)) true t e) as [?|a] eqn:E;
      [discriminate H|];
      cbn [bind] in H;
      apply read_data_volume_inv in E;
      let src := fresh "src" in
      destruct E as (src & ? & ? & ->)
  end.

Lemma read_grid_inv (fs : store) (g : grid) :
  read_grid fs = inr g ->
  edges_from fs "z_x1ap" (r_e g) /\ edges_from fs "z_x2ap" (th_e g)
  /\ edges_from fs "z_x3ap" (ph_e g) /\ edges_from fs "z_x1bp" (r_c g)
  /\ edges_from fs "z_x2bp" (th_c g) /\ edges_from fs "z_x3bp" (ph_c g).
Proof.
  intros H. unfold read_grid in H.
  do 6 invert_read H.
  inversion H; subst; clear H. cbn [np_ravel r_e th_e ph_e r_c th_c ph_c].
  unfold edges_from. repeat split; eexists; split; try eassumption; reflexivity.
Qed.

Lemma read_fields_inv (fs : store) (nframe : string) (sh : nat * nat * nat)
    (q : fields) :
  read_fields fs nframe sh = inr q ->
  volume_from fs ("o_d__" ++ nframe) sh (rho q)
  /\ volume_from fs ("o_v1_" ++ nframe) sh (Vr q)
  /\ volume_from fs ("o_v2_" ++ nframe) sh (Vph q)
  /\ volume_from fs ("o_v3_" ++ nframe) sh (Vth q)
  /\ volume_from fs ("o_b1_" ++ nframe) sh (Br q)
  /\ volume_from fs ("o_b2_" ++ nframe) sh (Bph q)
  /\ volume_from fs ("o_b3_" ++ nframe) sh (Bth q).
Proof.
  intros H. unfold read_fields in H. destruct sh as [[d0 d1] d2].
  do 7 invert_read H.
  inversion H; subst; clear H. cbn [np_ravel rho Vr Vph Vth Br Bph Bth].
  unfold volume_from. cbn [fst snd].
  repeat split; eexists; (split; [eassumption | split; [assumption | reflexivity]]).
Qed.

Lemma load_inv (fs : store) (nframe : string) (g : grid) (q : fields) :
  load fs nframe = inr (g, q) ->
  read_grid fs = inr g
  /\ exists q0, read_fields fs nframe (shape g) = inr q0 /\ q = preprocess q0.
Proof.
  intros H. unfold load in H.
  destruct (read_grid fs) as [e|g'] eqn:Eg; [discriminate|]. cbn [bind] in H.
  destruct (read_fields fs nframe (shape g')) as [e|q0] eqn:Eq; [discriminate|].
  cbn [bind] in H. inversion H; subst. split; [reflexivity|].
  exists q0. split; [assumption | reflexivity].
Qed.

(** After a load every quantity has one value per cell. *)
Lemma volume_from_shape_length (fs : store) (name : string) (g : grid)
    (l : list float) :
  volume_from fs name (shape g) l -> length l = n_cells g.
Proof.
  intros (src & _ & _ & ->). unfold shape.
  rewrite trimmed_volume_length by (unfold nghost; lia).
  unfold n_cells, nghost. nia.
Qed.

Lemma load_rho_length (fs : store) (nframe : string) (g : grid) (q : fields) :
  load fs nframe = inr (g, q) -> length (rho q) = n_cells g.
Proof.
  intros H. apply load_inv in H. destruct H as (_ & q0 & Hq & ->).
  apply read_fields_inv in Hq. destruct Hq as (Hrho & _).
  cbn [preprocess rho]. eapply volume_from_shape_length. eassumption.
Qed.

(** The two radii a run writes: the first edge kept, and the edge
    [nghost] places before the end of the untrimmed file. *)
Lemma load_radii (fs : store) (nframe : string) (g : grid) (q : fields) :
  load fs nframe = inr (g, q) ->
  1 <= n_r g ->
  exists src, fs "z_x1ap" = Some src
    /\ length src = n_r g + 2 * nghost
    /\ r_e g = firstn (n_r g) (skipn nghost src)
    /\ py_index (r_e g) 0 = inr (nth nghost src 0%float)
    /\ py_index src (- Z.of_nat nghost)
       = inr (nth (length src - nghost) src 0%float).
Proof.
  intros H Hn. apply load_inv in H. destruct H as (Hg & _).
  apply read_grid_inv in Hg. destruct Hg as ((src & Hsrc & Hr) & _).
  unfold n_r in *.
  assert (Hlen : length (r_e g) = length src - 2 * nghost).
  { rewrite Hr. apply py_slice_margin_length. unfold nghost. lia. }
  assert (Hr' : r_e g = firstn (length src - 2 * nghost) (skipn nghost src)).
  { rewrite Hr. apply py_slice_margin; unfold nghost in *; lia. }
  exists src. split; [|split; [|split; [|split]]].
  - assumption.
  - lia.
  - rewrite Hlen. assumption.
  - change 0%Z with (Z.of_nat 0). rewrite py_index_nat by lia.
    f_equal. rewrite Hr'. rewrite nth_firstn.
    destruct (Nat.ltb_spec 0 (length src - 2 * nghost)) as [_|H0]; [|lia].
    rewrite nth_skipn. f_equal; lia.
  - apply py_index_from_end; unfold nghost in *; lia.
Qed.

(** ** The whole run *)

Lemma open_grid_valid (output_grid grid_format : string) :
  valid_format grid_format ->
  open_grid output_grid grid_format
  = inr (open_ (output_name output_grid grid_format) (output_mode grid_format)).
Proof. intros [-> | ->]; reflexivity. Qed.

Lemma open_grid_invalid (output_grid grid_format : string) :
  grid_format <> "binary" -> grid_format <> "ascii" ->
  open_grid output_grid grid_format
  = inl (ValueError ("[zeus2polaris] grid_format must be either "
           ++ dquote ++ "binary" ++ dquote ++ " or "
           ++ dquote ++ "ascii" ++ dquote ++ ".")%string).
Proof.
  intros Hb Ha. unfold open_grid.
  apply String.eqb_neq in Hb. apply String.eqb_neq in Ha.
  rewrite Hb, Ha. reflexivity.
Qed.

(** A run whose inputs load, whose format is recognised and whose radial
    axis is not empty raises nothing, and leaves a closed file holding
    [grid_items]. *)
Lemma zeus2polaris_success (fs : store) (nframe output_grid : string)
    (verbose : bool) (grid_format : string) (g : grid) (q : fields) :
  load fs nframe = inr (g, q) ->
  valid_format grid_format ->
  counts_fit grid_format g ->
  1 <= n_r g ->
  exists src,
    fs "z_x1ap" = Some src
    /\ length src = n_r g + 2 * nghost
    /\ r_e g = firstn (n_r g) (skipn nghost src)
    /\ zeus2polaris fs nframe output_grid verbose grid_format
       = (inr tt,
          Some (mkFile (output_name output_grid grid_format)
                       (output_mode grid_format)
                       (grid_items grid_format g q
                          (nth nghost src 0%float)
                          (nth (length src - nghost) src 0%float))
                       true)).
Proof.
  intros Hload Hv Hfit Hn.
  destruct (load_radii _ _ _ _ Hload Hn) as (src & Hsrc & Hlen & Hr & Hin & Hout).
  exists src. repeat (split; [assumption|]).
  unfold zeus2polaris. rewrite Hload, (open_grid_valid _ _ Hv).
  rewrite (write_grid_result fs g q grid_format src _ _ _ Hv Hfit Hin Hsrc Hout)
    by (rewrite (load_rho_length _ _ _ _ Hload); lia).
  reflexivity.
Qed.

(** ** Writes only append *)

Lemma extends_refl (f1 : file) : extends f1 f1.
Proof. exists []. rewrite app_nil_r. reflexivity. Qed.

Lemma extends_trans (f1 f2 f3 : file) :
  extends f1 f2 -> extends f2 f3 -> extends f1 f3.
Proof.
  intros [l1 H1] [l2 H2]. exists (l1 ++ l2).
  rewrite H2, H1, app_assoc. reflexivity.
Qed.

Lemma appends_ret {A : Type} (a : A) : appends (io_ret a).
Proof. intros file_. apply extends_refl. Qed.

Lemma appends_lift {A : Type} (r : result A) : appends (lift r).
Proof. intros file_. apply extends_refl. Qed.

Lemma appends_bind {A B : Type} (m : io A) (k : A -> io B) :
  appends m -> (forall a, appends (k a)) -> appends (io_bind m k).
Proof.
  intros Hm Hk file_. unfold io_bind.
  specialize (Hm file_). destruct (m file_) as [[e|a] file'].
  - exact Hm.
  - eapply extends_trans; [exact Hm | apply Hk].
Qed.

Lemma appends_for_each {A : Type} (l : list A) (body : A -> io unit) :
  (forall x, appends (body x)) -> appends (for_each l body).
Proof.
  intros H. induction l as [|x l IH]; simpl.
  - apply appends_ret.
  - apply appends_bind; [apply H | intros _; exact IH].
Qed.

Lemma appends_write2grid (format_ : string) (t : dtype) (var : pyval)
    (endl : bool) :
  appends (write2grid format_ t var endl).
Proof.
  intros file_. unfold write2grid.
  destruct (String.eqb format_ "binary").
  - destruct (struct_pack t var); [apply extends_refl|].
    eexists. reflexivity.
  - destruct (String.eqb format_ "ascii"); [|apply extends_refl].
    eexists. reflexivity.
Qed.

Lemma appends_close : appends (fun file_ => (inr tt, file_close file_)).
Proof. intros file_. exists []. simpl. rewrite app_nil_r. reflexivity. Qed.

Create HintDb appends.
#[local] Hint Resolve appends_ret appends_lift appends_write2grid
  appends_close : appends.

Ltac appends_tac :=
  repeat first
    [ apply appends_bind; [|intros ?]
    | apply appends_for_each; intros ?
    | solve [auto with appends] ].

Lemma appends_after_header (fs : store) (g : grid) (q : fields)
    (grid_format : string) :
  appends (io_bind (write_parameters fs g grid_format) (fun _ =>
           io_bind (write_edges (r_e g) grid_format) (fun _ =>
           io_bind (write_edges (ph_e g) grid_format) (fun _ =>
           io_bind (write_edges (th_e g) grid_format) (fun _ =>
           io_bind (write_cells g q grid_format) (fun _ =>
           io_bind (write_central_cell grid_format) (fun _ =>
           (fun file_ => (inr tt, file_close file_))))))))).
Proof.
  unfold write_parameters, write_edges, write_cells, write_central_cell.
  appends_tac.
  all: destruct (String.eqb grid_format "ascii"); auto with appends.
Qed.

(** Whatever happens later, a run that got as far as opening its output
    has the header at the start of the file. *)
Lemma zeus2polaris_header (fs : store) (nframe output_grid : string)
    (verbose : bool) (grid_format : string) (g : grid) (q : fields) :
  load fs nframe = inr (g, q) ->
  valid_format grid_format ->
  exists r file_ rest,
    zeus2polaris fs nframe output_grid verbose grid_format = (r, Some file_)
    /\ contents file_ = header_items grid_format ++ rest.
Proof.
  intros Hload Hv. unfold zeus2polaris.
  rewrite Hload, (open_grid_valid _ _ Hv). unfold write_grid.
  rewrite (writes_then _ _ (write_header_writes _ Hv)).
  pose proof (appends_after_header fs g q grid_format
                (file_append (open_ (output_name output_grid grid_format)
                                    (output_mode grid_format))
                             (header_items grid_format))) as [rest Hrest].
  match goal with
  | |- context [let '(_, _) := ?x in _] => destruct x as [r file']
  end.
  exists r, file', rest. split; [reflexivity|].
  cbn [snd] in Hrest. rewrite Hrest. reflexivity.
Qed.

(** ** The output depends on the edges and on the density only *)

Lemma write_grid_ext (fs fs' : store) (g g' : grid) (q q' : fields)
    (grid_format : string) :
  fs "z_x1ap" = fs' "z_x1ap" ->
  r_e g = r_e g' -> th_e g = th_e g' -> ph_e g = ph_e g' ->
  rho q = rho q' ->
  write_grid fs g q grid_format = write_grid fs' g' q' grid_format.
Proof.
  intros Hfs Hr Hth Hph Hrho.
  unfold write_grid, write_parameters, write_cells, n_cells, n_r, n_th, n_ph,
    read_data, isfile, open_rb.
  rewrite Hfs, Hr, Hth, Hph, Hrho. reflexivity.
Qed.

Lemma edges_from_agree (fs fs' : store) (name : string) (l l' : list float) :
  fs name = fs' name ->
  edges_from fs name l -> edges_from fs' name l' -> l = l'.
Proof.
  intros H (src & Hs & ->) (src' & Hs' & ->).
  rewrite H in Hs. rewrite Hs in Hs'. inversion Hs'. reflexivity.
Qed.

Lemma volume_from_agree (fs fs' : store) (name : string)
    (sh : nat * nat * nat) (l l' : list float) :
  fs name = fs' name ->
  volume_from fs name sh l -> volume_from fs' name sh l' -> l = l'.
Proof.
  intros H (src & Hs & _ & ->) (src' & Hs' & _ & ->).
  rewrite H in Hs. rewrite Hs in Hs'. inversion Hs'. reflexivity.
Qed.

(** Two stores with the same three edge files and the same density file
    give the same run, whatever their velocity and magnetic-field files
    hold, as long as both load. *)
Lemma zeus2polaris_same_edges_density (fs fs' : store)
    (nframe output_grid : string) (verbose : bool) (grid_format : string)
    (g g' : grid) (q q' : fields) :
  fs "z_x1ap" = fs' "z_x1ap" -> fs "z_x2ap" = fs' "z_x2ap" ->
  fs "z_x3ap" = fs' "z_x3ap" ->
  fs ("o_d__" ++ nframe)%string = fs' ("o_d__" ++ nframe)%string ->
  load fs nframe = inr (g, q) ->
  load fs' nframe = inr (g', q') ->
  zeus2polaris fs' nframe output_grid verbose grid_format
  = zeus2polaris fs nframe output_grid verbose grid_format.
Proof.
  intros H1 H2 H3 Hd Hl Hl'. unfold zeus2polaris. rewrite Hl, Hl'.
  apply load_inv in Hl. destruct Hl as (Hg & q0 & Hq & ->).
  apply load_inv in Hl'. destruct Hl' as (Hg' & q0' & Hq' & ->).
  apply read_grid_inv in Hg. destruct Hg as (Er & Eth & Eph & _).
  apply read_grid_inv in Hg'. destruct Hg' as (Er' & Eth' & Eph' & _).
  pose proof (edges_from_agree _ _ _ _ _ H1 Er Er') as Hr.
  pose proof (edges_from_agree _ _ _ _ _ H2 Eth Eth') as Hth.
  pose proof (edges_from_agree _ _ _ _ _ H3 Eph Eph') as Hph.
  assert (Hsh : shape g = shape g').
  { unfold shape, n_r, n_ph, n_th. rewrite Hr, Hth, Hph. reflexivity. }
  apply read_fields_inv in Hq. destruct Hq as (Vd & _).
  apply read_fields_inv in Hq'. destruct Hq' as (Vd' & _).
  rewrite <- Hsh in Vd'.
  pose proof (volume_from_agree _ _ _ _ _ _ Hd Vd Vd') as Hrho.
  destruct (open_grid output_grid grid_format) as [e|file_]; [reflexivity|].
  rewrite (write_grid_ext fs' fs g' g (preprocess q0') (preprocess q0)
             grid_format); [reflexivity | | | | | ]; cbn [preprocess rho];
    congruence.
Qed.

(** ** Element-wise transforms *)

Lemma nth_map_in {A B : Type} (h : A -> B) (l : list A) (i : nat)
    (dA : A) (dB : B) :
  i < length l -> nth i (map h l) dB = h (nth i l dA).
Proof.
  intros Hi. rewrite nth_indep with (d' := h dA) by (rewrite length_map; assumption).
  apply map_nth.
Qed.

Lemma np_where_ne_zero (V : list float) :
  np_where (np_ne V 0%float) V minvel
  = map (fun v => if (v =? 0)%float then minvel else v) V.
Proof.
  unfold np_where, np_ne. induction V as [|v V IH]; simpl; [reflexivity|].
  rewrite IH. destruct (v =? 0)%float; reflexivity.
Qed.

Lemma minvel_nonzero : (minvel =? 0)%float = false.
Proof. vm_compute. reflexivity. Qed.

Lemma floor_applied_np_where (V : list float) :
  floor_applied V (np_where (np_ne V 0%float) V minvel).
Proof.
  rewrite np_where_ne_zero. split; [apply length_map|].
  intros i Hi.
  rewrite (nth_map_in _ V i 0%float) by assumption.
  destruct (nth i V 0 =? 0)%float eqn:E.
  - split; [reflexivity | split; [discriminate | apply minvel_nonzero]].
  - split; [discriminate | split; [reflexivity | assumption]].
Qed.

Lemma scaled_np_mul (B : list float) :
  scaled_by_sqrt_4pi B (np_mul B sqrt_4pi).
Proof.
  unfold np_mul. split; [apply length_map|].
  intros i Hi.
  rewrite (nth_map_in _ B i 0%float) by assumption. reflexivity.
Qed.

(** ** The claims *)

Lemma scenario_load :
  load scenario_store "00001" = inr (fst scenario_loaded, snd scenario_loaded).
Proof. vm_compute. reflexivity. Qed.

Lemma scenario_load' :
  load scenario_store' "00001" = inr (fst scenario_loaded', snd scenario_loaded').
Proof. vm_compute. reflexivity. Qed.

Lemma float_neq (x y : float) : (x =? y)%float <> (y =? y)%float -> x <> y.
Proof. intros H E. apply H. rewrite E. reflexivity. Qed.

(** C1, as stated, fails: with the ten edges [0..9] on every axis the run
    writes the radii 3 and 7.  The first edge of the still-ghosted file is 0
    and its third edge is 2; the last de-ghosted edge is 6 and the last edge
    of the file is 9. *)
Lemma C1_radii_counterexample :
  exists file_,
    zeus2polaris scenario_store "00001" "grid" true "binary"
      = (inr tt, Some file_)
    /\ radii_written file_ = Some (Packed (Double 3), Packed (Double 7))
    /\ hd 0%float scenario_edges = 0%float
    /\ nth 2 scenario_edges 0%float = 2%float
    /\ last (r_e (fst scenario_loaded)) 0%float = 6%float
    /\ last scenario_edges 0%float = 9%float
    /\ radii_written file_
       <> Some (Packed (Double (hd 0%float scenario_edges)),
                Packed (Double (last (r_e (fst scenario_loaded)) 0%float)))
    /\ radii_written file_
       <> Some (Packed (Double (nth 2 scenario_edges 0%float)),
                Packed (Double (last scenario_edges 0%float))).
Proof.
  eexists. split; [vm_compute; reflexivity|].
  split; [vm_compute; reflexivity|].
  split; [vm_compute; reflexivity|].
  split; [vm_compute; reflexivity|].
  split; [vm_compute; reflexivity|].
  split; [vm_compute; reflexivity|].
  split; intros H; vm_compute in H; inversion H as [[H1 H2]];
    revert H2; apply float_neq; vm_compute; discriminate.
Qed.

(** C1, amended: the inner radius written is the first de-ghosted r-edge
    [r_e[0]], the source edge of index [nghost]; the outer radius is the
    edge of index [-nghost] of the untrimmed file, which is the source edge
    right after the last de-ghosted one.  With ten edges in the file these
    are the edges of index 3 and 7. *)
Theorem C1_radii_written (fs : store) (nframe output_grid : string)
    (verbose : bool) (grid_format : string) (g : grid) (q : fields) :
  load fs nframe = inr (g, q) ->
  valid_format grid_format ->
  counts_fit grid_format g ->
  1 <= n_r g ->
  exists src file_,
    fs "z_x1ap" = Some src
    /\ zeus2polaris fs nframe output_grid verbose grid_format
       = (inr tt, Some file_)
    /\ radii_written file_
       = Some (double_item grid_format (nth nghost src 0%float) false,
               double_item grid_format (nth (length src - nghost) src 0%float) true)
    /\ nth nghost src 0%float = nth 0 (r_e g) 0%float
    /\ last (r_e g) 0%float = nth (length src - nghost - 1) src 0%float
    /\ (length src = 2 * nghost + 4 ->
        radii_written file_
        = Some (double_item grid_format (nth 3 src 0%float) false,
                double_item grid_format (nth 7 src 0%float) true)).
Proof.
  intros Hload Hv Hfit Hn.
  destruct (zeus2polaris_success fs nframe output_grid verbose grid_format
              g q Hload Hv Hfit Hn) as (src & Hsrc & Hlen & Hr & Hrun).
  eexists src, _. split; [assumption|]. split; [exact Hrun|].
  assert (Hrad : radii_written
            (mkFile (output_name output_grid grid_format)
               (output_mode grid_format)
               (grid_items grid_format g q (nth nghost src 0%float)
                  (nth (length src - nghost) src 0%float)) true)
          = Some (double_item grid_format (nth nghost src 0%float) false,
                  double_item grid_format
                    (nth (length src - nghost) src 0%float) true))
    by reflexivity.
  split; [exact Hrad|]. split; [|split].
  - rewrite Hr, nth_firstn.
    destruct (Nat.ltb_spec 0 (n_r g)) as [_|H0]; [|lia].
    rewrite nth_skipn. f_equal; lia.
  - assert (Hne : r_e g <> []).
    { intros E. unfold n_r in Hn. rewrite E in Hn. simpl in Hn. lia. }
    destruct (exists_last Hne) as (l' & x & E).
    assert (Hx : last (r_e g) 0%float = nth (n_r g - 1) (r_e g) 0%float).
    { unfold n_r. rewrite E, last_last, length_app, app_nth2 by (simpl; lia).
      simpl. replace (length l' + 1 - 1 - length l') with 0 by lia. reflexivity. }
    rewrite Hx, Hr, nth_firstn.
    destruct (Nat.ltb_spec (n_r g - 1) (n_r g)) as [_|H0]; [|lia].
    rewrite nth_skipn. f_equal. unfold nghost in *. lia.
  - intros H10. rewrite Hrad, H10. reflexivity.
Qed.

Lemma C1_radii_written_witness :
  exists src file_,
    scenario_store "z_x1ap" = Some src
    /\ zeus2polaris scenario_store "00001" "grid" true "ascii"
       = (inr tt, Some file_)
    /\ radii_written file_
       = Some (Text (PyFloat (nth 3 src 0%float)) false,
               Text (PyFloat (nth 7 src 0%float)) true).
Proof.
  destruct (C1_radii_written scenario_store "00001" "grid" true "ascii"
              (fst scenario_loaded) (snd scenario_loaded))
    as (src & file_ & Hsrc & Hrun & _ & _ & _ & H10).
  - exact scenario_load.
  - right. reflexivity.
  - intros H. discriminate H.
  - vm_compute. repeat constructor.
  - exists src, file_. split; [exact Hsrc|]. split; [exact Hrun|].
    apply H10. vm_compute in Hsrc. inversion Hsrc. reflexivity.
Defined.

(** With a margin of at least one cell and a three-axis shape, [read_data]
    lays the flat buffer out in column-major order (the element [(a, b, c)]
    of the reshaped array is the buffer element [a + d0*(b + d1*c)]), removes
    [m] elements at both ends of every axis, swaps axes 1 and 2 and
    flattens in row-major order: the element [(i, j, k)] of the trimmed array
    lands at position [(i*n2 + k)*n1 + j].  [zeus2polaris] reads each of its
    seven quantities with the padded shape
    [(n_r + 2*nghost, n_ph + 2*nghost, n_th + 2*nghost)]. *)
Lemma read_data_volume_positive_margin :
  (forall (fs : store) (filename : string) (src : list float)
          (d0 d1 d2 m : nat),
      fs filename = Some src ->
      length src = d0 * d1 * d2 ->
      0 < m ->
      exists out,
        read_data fs filename (Some (d0, d1, d2)) true (Some (Z.of_nat m)) (-1)
          = inr (Arr1 out)
        /\ length out = (d0 - 2 * m) * ((d2 - 2 * m) * (d1 - 2 * m))
        /\ forall i j k,
             i < d0 - 2 * m -> j < d1 - 2 * m -> k < d2 - 2 * m ->
             nth ((i * (d2 - 2 * m) + k) * (d1 - 2 * m) + j) out 0%float
             = nth ((i + m) + d0 * ((j + m) + d1 * (k + m))) src 0%float)
  /\ (forall (fs : store) (nframe : string) (g : grid) (q : fields),
      load fs nframe = inr (g, q) ->
      let padded := (length (r_e g) + 2 * nghost, length (ph_e g) + 2 * nghost,
                     length (th_e g) + 2 * nghost) in
      let read tag :=
        read_data fs (tag ++ nframe)%string (Some padded) true
          (Some (Z.of_nat nghost)) (-1) in
      exists q0,
        q = preprocess q0
        /\ read "o_d__" = inr (Arr1 (rho q0)) /\ read "o_v1_" = inr (Arr1 (Vr q0))
        /\ read "o_v2_" = inr (Arr1 (Vph q0)) /\ read "o_v3_" = inr (Arr1 (Vth q0))
        /\ read "o_b1_" = inr (Arr1 (Br q0)) /\ read "o_b2_" = inr (Arr1 (Bph q0))
        /\ read "o_b3_" = inr (Arr1 (Bth q0))).
Proof.
  split.
  - intros fs filename src d0 d1 d2 m Hsrc Hlen Hm.
    exists (trimmed_volume src (d0, d1, d2) (Z.of_nat m)).
    split; [apply read_data_volume; assumption|].
    split; [apply trimmed_volume_length; assumption|].
    intros i j k Hi Hj Hk. apply trimmed_volume_nth; assumption.
  - intros fs nframe g q Hload padded read.
    apply load_inv in Hload. destruct Hload as (_ & q0 & Hq & ->).
    exists q0. split; [reflexivity|].
    apply read_fields_inv in Hq.
    destruct Hq as (H1 & H2 & H3 & H4 & H5 & H6 & H7).
    subst read padded. unfold shape, n_r, n_ph, n_th in *.
    repeat match goal with
    | H : volume_from _ _ _ _ |- _ =>
        let src := fresh "src" in
        let Hs := fresh "Hs" in
        let Hl := fresh "Hl" in
        destruct H as (src & Hs & Hl & ->); cbn [fst snd] in Hl;
        rewrite (read_data_volume _ _ _ _ _ _ _ Hs Hl)
    end.
    repeat split.
Qed.

(** C2 fails for the margin 0, on the three-axis path as C8 does on the
    one-axis path: [data[0:-0, 0:-0, 0:-0]] is [data[0:0, 0:0, 0:0]], so
    [read_data] returns no element at all, whatever the volume holds, where
    the claim promises all of them with axes 1 and 2 swapped (for the eight
    values 1..8 in the shape (2, 2, 2): 1, 3, 5, 7, 2, 4, 6, 8). *)
Theorem C2_zero_margin_volume_is_empty :
  (forall (name : string) (x : float) (d0 d1 d2 : nat),
      read_data (single_file name (repeat x (d0 * d1 * d2))) name
        (Some (d0, d1, d2)) true (Some 0%Z) (-1)
      = inr (Arr1 []))
  /\ read_data (single_file "o_d__00001" [1; 2; 3; 4; 5; 6; 7; 8]%float)
       "o_d__00001" (Some (2, 2, 2)) true (Some 0%Z) (-1)
     = inr (Arr1 [])
  /\ ravel3 (swapaxes12
               (mkArray3 [1; 2; 3; 4; 5; 6; 7; 8]%float 0 (2, 2, 2) (1, 2, 4)))
     = [1; 3; 5; 7; 2; 4; 6; 8]%float.
Proof.
  split; [|split; reflexivity].
  intros name x d0 d1 d2.
  rewrite (read_data_volume _ _ (repeat x (d0 * d1 * d2)) d0 d1 d2).
  - unfold trimmed_volume, slice3. cbn [shape3 strides buf offset fst snd].
    rewrite !slice_bounds_zero. reflexivity.
  - unfold single_file. rewrite String.eqb_refl. reflexivity.
  - apply repeat_length.
Qed.

(** C3: after the three edge sequences the file holds one record per cell,
    [length r_e * length th_e * length ph_e] of them, each with one value per
    quantity ID, then one record of zeros, and the file is closed. *)
Theorem C3_cell_records_and_sentinel (fs : store) (nframe output_grid : string)
    (verbose : bool) (grid_format : string) (g : grid) (q : fields) :
  load fs nframe = inr (g, q) ->
  valid_format grid_format ->
  counts_fit grid_format g ->
  1 <= n_r g ->
  exists file_ inner outer records,
    zeus2polaris fs nframe output_grid verbose grid_format
      = (inr tt, Some file_)
    /\ contents file_
       = (header_items grid_format
          ++ parameter_items grid_format inner outer (n_r g) (n_ph g) (n_th g)
          ++ edge_items grid_format (r_e g)
          ++ edge_items grid_format (ph_e g)
          ++ edge_items grid_format (th_e g))
         ++ concat records
         ++ [zero_item grid_format false; zero_item grid_format true]
    /\ records = cell_records grid_format (rho q) (n_cells g)
    /\ length records = length (r_e g) * length (th_e g) * length (ph_e g)
    /\ Forall (fun record => length record = length IDs) records
    /\ zero_item "binary" false = Packed (Double 0)
    /\ zero_item "binary" true = Packed (Double 0)
    /\ zero_item "ascii" false = Text (PyInt 0) false
    /\ zero_item "ascii" true = Text (PyInt 0) true
    /\ closed file_ = true.
Proof.
  intros Hload Hv Hfit Hn.
  destruct (zeus2polaris_success fs nframe output_grid verbose grid_format
              g q Hload Hv Hfit Hn) as (src & Hsrc & Hlen & Hr & Hrun).
  eexists _, _, _, _. split; [exact Hrun|].
  split; [cbn [contents]; unfold grid_items, central_cell;
          rewrite <- !app_assoc; reflexivity|].
  split; [reflexivity|].
  split; [unfold cell_records; rewrite length_map, length_seq; reflexivity|].
  split; [|repeat split].
  unfold cell_records. apply Forall_forall. intros record Hin.
  apply in_map_iff in Hin. destruct Hin as (cell & <- & _). reflexivity.
Qed.

Lemma C3_cell_records_and_sentinel_witness :
  exists file_ prefix records,
    zeus2polaris scenario_store "00001" "grid" true "ascii"
      = (inr tt, Some file_)
    /\ contents file_
       = prefix ++ concat records ++ [Text (PyInt 0) false; Text (PyInt 0) true]
    /\ length records = 4 * 4 * 4
    /\ closed file_ = true.
Proof.
  destruct (C3_cell_records_and_sentinel scenario_store "00001" "grid" true
              "ascii" (fst scenario_loaded) (snd scenario_loaded))
    as (file_ & inner & outer & records & Hrun & Hc & _ & Hlen & _ & _ & _ & _
        & _ & Hclosed).
  - exact scenario_load.
  - right. reflexivity.
  - intros H. discriminate H.
  - vm_compute. repeat constructor.
  - exists file_. eexists. exists records.
    split; [exact Hrun|]. split; [exact Hc|]. split; [exact Hlen | exact Hclosed].
Defined.

(** C4: the record of cell number [cell] holds [rho[cell]] and
    [0.01 * rho[cell]], and the run is the same for any other store with the
    same edge and density files that loads: the velocity and magnetic-field
    files have no effect on what is written. *)
Theorem C4_payload_is_density (fs : store) (nframe output_grid : string)
    (verbose : bool) (grid_format : string) (g : grid) (q : fields) :
  load fs nframe = inr (g, q) ->
  valid_format grid_format ->
  counts_fit grid_format g ->
  1 <= n_r g ->
  exists file_ prefix records,
    zeus2polaris fs nframe output_grid verbose grid_format
      = (inr tt, Some file_)
    /\ contents file_ = prefix ++ concat records ++ central_cell grid_format
    /\ length prefix
       = 2 + length IDs + 8
         + length (edge_items grid_format (r_e g))
         + length (edge_items grid_format (ph_e g))
         + length (edge_items grid_format (th_e g))
    /\ length records = n_cells g
    /\ (forall cell, cell < n_cells g ->
          nth cell records []
          = [double_item grid_format (nth cell (rho q) 0%float) false;
             double_item grid_format (0.01 * nth cell (rho q) 0)%float true])
    /\ (forall fs' g' q',
          fs' "z_x1ap" = fs "z_x1ap" -> fs' "z_x2ap" = fs "z_x2ap" ->
          fs' "z_x3ap" = fs "z_x3ap" ->
          fs' ("o_d__" ++ nframe)%string = fs ("o_d__" ++ nframe)%string ->
          load fs' nframe = inr (g', q') ->
          zeus2polaris fs' nframe output_grid verbose grid_format
          = (inr tt, Some file_)).
Proof.
  intros Hload Hv Hfit Hn.
  destruct (zeus2polaris_success fs nframe output_grid verbose grid_format
              g q Hload Hv Hfit Hn) as (src & Hsrc & Hlen & Hr & Hrun).
  eexists _,
    (header_items grid_format
     ++ parameter_items grid_format (nth nghost src 0%float)
          (nth (length src - nghost) src 0%float) (n_r g) (n_ph g) (n_th g)
     ++ edge_items grid_format (r_e g)
     ++ edge_items grid_format (ph_e g)
     ++ edge_items grid_format (th_e g)),
    (cell_records grid_format (rho q) (n_cells g)).
  split; [exact Hrun|].
  split; [cbn [contents]; unfold grid_items; rewrite <- !app_assoc; reflexivity|].
  split; [rewrite !length_app; simpl; lia|].
  split; [unfold cell_records; rewrite length_map, length_seq; reflexivity|].
  split.
  - intros cell Hcell. unfold cell_records.
    rewrite (nth_map_in _ (seq 0 (n_cells g)) cell 0)
      by (rewrite length_seq; assumption).
    rewrite seq_nth by assumption. reflexivity.
  - intros fs' g' q' H1 H2 H3 Hd Hload'.
    rewrite <- Hrun.
    apply (zeus2polaris_same_edges_density fs fs' nframe output_grid verbose
             grid_format g g' q q'); auto.
Qed.

Lemma C4_payload_is_density_witness :
  exists file_ prefix records,
    zeus2polaris scenario_store "00001" "grid" true "binary"
      = (inr tt, Some file_)
    /\ contents file_ = prefix ++ concat records ++ central_cell "binary"
    /\ nth 5 records []
       = [Packed (Double (nth 5 (rho (snd scenario_loaded)) 0%float));
          Packed (Double (0.01 * nth 5 (rho (snd scenario_loaded)) 0)%float)]
    /\ zeus2polaris scenario_store' "00001" "grid" true "binary"
       = (inr tt, Some file_).
Proof.
  destruct (C4_payload_is_density scenario_store "00001" "grid" true
              "binary" (fst scenario_loaded) (snd scenario_loaded))
    as (file_ & prefix & records & Hrun & Hc & _ & _ & Hcell & Hsame).
  - exact scenario_load.
  - left. reflexivity.
  - intros _. vm_compute. repeat split; discriminate.
  - vm_compute. repeat constructor.
  - exists file_, prefix, records.
    split; [exact Hrun|]. split; [exact Hc|]. split.
    + apply (Hcell 5). vm_compute. repeat constructor.
    + apply (Hsame scenario_store' (fst scenario_loaded') (snd scenario_loaded'));
        [reflexivity | reflexivity | reflexivity | reflexivity
        | exact scenario_load'].
Defined.

(** C5: the file starts with the grid identifier, the number of quantity
    IDs and the IDs, that is 30, 2, 28, 29; each is a two-byte unsigned
    short in binary mode and a decimal token in ascii mode. *)
Theorem C5_header (fs : store) (nframe output_grid : string)
    (verbose : bool) (grid_format : string) (g : grid) (q : fields) :
  load fs nframe = inr (g, q) ->
  valid_format grid_format ->
  exists r file_ rest,
    zeus2polaris fs nframe output_grid verbose grid_format = (r, Some file_)
    /\ contents file_
       = map (fun n => ushort_item grid_format n true)
             (id_grid :: Z.of_nat (length IDs) :: IDs) ++ rest
    /\ (id_grid :: Z.of_nat (length IDs) :: IDs = [30; 2; 28; 29])%Z
    /\ (forall n endl,
          ushort_item "binary" n endl = Packed (UShort n)
          /\ struct_pack fmt_H (PyInt n)
             = (if ((0 <=? n) && (n <=? 65535))%Z
                then inr (UShort n)
                else if ((- 2 ^ 63 <=? n) && (n <? 2 ^ 63))%Z
                then inl (StructError
                            "ushort format requires 0 <= number <= 65535")
                else inl (StructError "argument out of range"))
          /\ packed_size (UShort n) = 2
          /\ length (ushort_bytes n) = 2
          /\ ushort_item "ascii" n endl = Text (PyInt n) endl)
    /\ map ushort_bytes [30; 2; 28; 29]%Z
       = [[30; 0]; [2; 0]; [28; 0]; [29; 0]]%Z
    /\ map str_int [30; 2; 28; 29]%Z = ["30"; "2"; "28"; "29"]%string.
Proof.
  intros Hload Hv.
  destruct (zeus2polaris_header fs nframe output_grid verbose grid_format
              g q Hload Hv) as (r & file_ & rest & Hrun & Hc).
  exists r, file_, rest. split; [exact Hrun|]. split; [exact Hc|].
  split; [reflexivity|]. split; [|split; reflexivity].
  intros n endl. repeat split.
Qed.

Lemma C5_header_witness :
  (exists r file_ rest,
     zeus2polaris scenario_store "00001" "grid" true "binary" = (r, Some file_)
     /\ contents file_
        = [Packed (UShort 30); Packed (UShort 2); Packed (UShort 28);
           Packed (UShort 29)] ++ rest)
  /\ (exists r file_ rest,
     zeus2polaris scenario_store "00001" "grid" true "ascii" = (r, Some file_)
     /\ contents file_
        = [Text (PyInt 30) true; Text (PyInt 2) true; Text (PyInt 28) true;
           Text (PyInt 29) true] ++ rest).
Proof.
  split.
  - destruct (C5_header scenario_store "00001" "grid" true "binary"
                (fst scenario_loaded) (snd scenario_loaded) scenario_load)
      as (r & file_ & rest & Hrun & Hc & _).
    + left. reflexivity.
    + exists r, file_, rest. split; [exact Hrun | exact Hc].
  - destruct (C5_header scenario_store "00001" "grid" true "ascii"
                (fst scenario_loaded) (snd scenario_loaded) scenario_load)
      as (r & file_ & rest & Hrun & Hc & _).
    + right. reflexivity.
    + exists r, file_, rest. split; [exact Hrun | exact Hc].
Defined.

(** C6: in each of the three velocity volumes of a loaded frame, a value
    that compares equal to zero becomes [minvel = 1e-5], any other value is
    kept, and no value of the result compares equal to zero. *)
Theorem C6_velocity_floor (fs : store) (nframe : string) (g : grid) (q : fields) :
  load fs nframe = inr (g, q) ->
  exists v1 v2 v3,
    volume_from fs ("o_v1_" ++ nframe) (shape g) v1
    /\ volume_from fs ("o_v2_" ++ nframe) (shape g) v2
    /\ volume_from fs ("o_v3_" ++ nframe) (shape g) v3
    /\ floor_applied v1 (Vr q)
    /\ floor_applied v2 (Vph q)
    /\ floor_applied v3 (Vth q)
    /\ minvel = 1e-5%float
    /\ (0 <? minvel)%float = true.
Proof.
  intros Hload. apply load_inv in Hload. destruct Hload as (_ & q0 & Hq & ->).
  apply read_fields_inv in Hq.
  destruct Hq as (_ & H1 & H2 & H3 & _).
  exists (Vr q0), (Vph q0), (Vth q0).
  repeat (split; [assumption|]).
  cbn [preprocess Vr Vph Vth].
  repeat (split; [apply floor_applied_np_where|]).
  split; [reflexivity | vm_compute; reflexivity].
Qed.

Lemma C6_velocity_floor_witness :
  exists v1,
    volume_from scenario_store "o_v1_00001" (10, 10, 10) v1
    /\ nth 16 v1 0%float = 0%float
    /\ nth 16 (Vr (snd scenario_loaded)) 0%float = 1e-5%float
    /\ nth 0 v1 0%float = 1%float
    /\ nth 0 (Vr (snd scenario_loaded)) 0%float = 1%float.
Proof.
  destruct (C6_velocity_floor scenario_store "00001" (fst scenario_loaded)
              (snd scenario_loaded) scenario_load)
    as (v1 & _ & _ & Hv1 & _).
  exists v1. split; [exact Hv1|].
  destruct Hv1 as (src & Hsrc & _ & ->).
  vm_compute in Hsrc. inversion Hsrc; subst src.
  repeat split; vm_compute; reflexivity.
Defined.

(** C7: each of the three magnetic-field volumes of a loaded frame is the
    de-ghosted file content with every element multiplied by
    [sqrt(4 * pi)], and nothing else. *)
Theorem C7_magnetic_field_units (fs : store) (nframe : string) (g : grid)
    (q : fields) :
  load fs nframe = inr (g, q) ->
  exists b1 b2 b3,
    volume_from fs ("o_b1_" ++ nframe) (shape g) b1
    /\ volume_from fs ("o_b2_" ++ nframe) (shape g) b2
    /\ volume_from fs ("o_b3_" ++ nframe) (shape g) b3
    /\ scaled_by_sqrt_4pi b1 (Br q)
    /\ scaled_by_sqrt_4pi b2 (Bph q)
    /\ scaled_by_sqrt_4pi b3 (Bth q)
    /\ Br q = map (fun b => (b * sqrt (4 * np_pi))%float) b1
    /\ Bph q = map (fun b => (b * sqrt (4 * np_pi))%float) b2
    /\ Bth q = map (fun b => (b * sqrt (4 * np_pi))%float) b3.
Proof.
  intros Hload. apply load_inv in Hload. destruct Hload as (_ & q0 & Hq & ->).
  apply read_fields_inv in Hq.
  destruct Hq as (_ & _ & _ & _ & H1 & H2 & H3).
  exists (Br q0), (Bph q0), (Bth q0).
  repeat (split; [assumption|]).
  cbn [preprocess Br Bph Bth].
  repeat (split; [apply scaled_np_mul|]).
  repeat split.
Qed.

Lemma C7_magnetic_field_units_witness :
  exists b1,
    volume_from scenario_store "o_b1_00001" (10, 10, 10) b1
    /\ nth 0 b1 0%float = 333%float
    /\ nth 0 (Br (snd scenario_loaded)) 0%float
       = (333 * sqrt (4 * 3.141592653589793))%float.
Proof.
  destruct (C7_magnetic_field_units scenario_store "00001"
              (fst scenario_loaded) (snd scenario_loaded) scenario_load)
    as (b1 & _ & _ & Hb1 & _).
  exists b1. split; [exact Hb1|].
  destruct Hb1 as (src & Hsrc & _ & ->).
  vm_compute in Hsrc. inversion Hsrc; subst src.
  repeat split; vm_compute; reflexivity.
Defined.

(** ** Trimming a one-dimensional array *)

(** For a margin of at least one cell that leaves something of the axis,
    [read_data] returns the [n - 2*m] elements [src[m : n-m]]. *)
Lemma read_data_trims_positive_margin (fs : store) (filename : string)
    (src : list float) (m : nat) :
  fs filename = Some src ->
  0 < m -> 2 * m < length src ->
  exists out,
    read_data fs filename None true (Some (Z.of_nat m)) (-1) = inr (Arr1 out)
    /\ length out = length src - 2 * m
    /\ out = py_slice (Z.of_nat m) (Z.of_nat (length src - m)) src
    /\ out = firstn (length src - 2 * m) (skipn m src).
Proof.
  intros Hsrc Hm Hn. eexists. split; [apply read_data_line; eassumption|].
  split; [apply py_slice_margin_length; assumption|].
  split; [|apply py_slice_margin; lia].
  unfold py_slice, slice_bounds, clamp_index.
  destruct (Z.ltb_spec (Z.of_nat m) 0) as [H|H]; [lia|].
  destruct (Z.ltb_spec (- Z.of_nat m) 0) as [H'|H']; [|lia].
  destruct (Z.ltb_spec (Z.of_nat (length src - m)) 0) as [H''|H'']; [lia|].
  f_equal. lia.
Qed.

(** C8 fails for the margin 0: the slice [data[0:-0]] is [data[0:0]], so
    [read_data] returns no element at all, whatever the file holds, where
    the claim promises all [n] of them. *)
Theorem C8_zero_margin_returns_nothing :
  (forall (name : string) (content : list float),
      read_data (single_file name content) name None true (Some 0%Z) (-1)
      = inr (Arr1 []))
  /\ read_data (single_file "z_x1ap" [1; 2; 3]%float) "z_x1ap" None true
       (Some 0%Z) (-1)
     = inr (Arr1 [])
  /\ py_slice 0 (3 - 0) [1; 2; 3]%float = [1; 2; 3]%float.
Proof.
  split; [|split; reflexivity].
  intros name content.
  rewrite (read_data_line _ _ content).
  - unfold py_slice. change (- 0)%Z with 0%Z.
    change (slice_bounds (length content) 0 0)
      with (slice_bounds (length content) 0 (- 0)).
    rewrite slice_bounds_zero. reflexivity.
  - unfold single_file. rewrite String.eqb_refl. reflexivity.
Qed.

(** ** Failures *)

(** C9: with a format that is neither "binary" nor "ascii" the run raises
    and no output file is opened; once the input files have loaded, the
    exception is the ValueError of the format check. *)
Theorem C9_invalid_format (fs : store) (nframe output_grid : string)
    (verbose : bool) (grid_format : string) :
  grid_format <> "binary" ->
  grid_format <> "ascii" ->
  snd (zeus2polaris fs nframe output_grid verbose grid_format) = None
  /\ (exists e,
        fst (zeus2polaris fs nframe output_grid verbose grid_format) = inl e)
  /\ (forall g q,
        load fs nframe = inr (g, q) ->
        zeus2polaris fs nframe output_grid verbose grid_format
        = (inl (ValueError ("[zeus2polaris] grid_format must be either "
                  ++ dquote ++ "binary" ++ dquote ++ " or "
                  ++ dquote ++ "ascii" ++ dquote ++ ".")%string),
           None)).
Proof.
  intros Hb Ha. unfold zeus2polaris.
  rewrite (open_grid_invalid output_grid grid_format Hb Ha).
  destruct (load fs nframe) as [e|[g q]].
  - split; [reflexivity|]. split; [eexists; reflexivity|].
    intros g q H. discriminate H.
  - split; [reflexivity|]. split; [eexists; reflexivity|].
    intros g' q' _. reflexivity.
Qed.

Lemma C9_invalid_format_witness :
  zeus2polaris scenario_store "00001" "grid" true "hdf5"
  = (inl (ValueError ("[zeus2polaris] grid_format must be either "
            ++ dquote ++ "binary" ++ dquote ++ " or "
            ++ dquote ++ "ascii" ++ dquote ++ ".")%string),
     None).
Proof.
  apply (proj2 (proj2 (C9_invalid_format scenario_store "00001" "grid" true
                         "hdf5" ltac:(discriminate) ltac:(discriminate)))
           (fst scenario_loaded) (snd scenario_loaded)).
  exact scenario_load.
Defined.



(** ** More on read_data *)

(** X1: without [trim_ghosts] the [shape] argument is never looked at: the
    file comes back flat, whatever the shape, even one that does not match
    the number of values. *)
Theorem read_data_shape_ignored_without_margin (fs : store) (filename : string)
    (src : list float) (sh : nat * nat * nat) (unshape : bool) (entries : Z) :
  fs filename = Some src ->
  read_data fs filename (Some sh) unshape None entries
  = inr (Arr1 (np_fromfile src entries))
  /\ read_data fs filename (Some sh) unshape None entries
     = read_data fs filename None unshape None entries.
Proof.
  intros H. unfold read_data, isfile, open_rb. rewrite H. cbn [negb bind ret].
  destruct unshape; split; reflexivity.
Qed.

Lemma read_data_shape_ignored_without_margin_witness :
  read_data scenario_store "z_x1ap" (Some (7, 7, 7)) true None (-1)
  = inr (Arr1 scenario_edges).
Proof.
  apply (proj1 (read_data_shape_ignored_without_margin scenario_store "z_x1ap"
                  scenario_edges (7, 7, 7) true (-1) eq_refl)).
Defined.

Lemma read_data_reshape_mismatch (fs : store) (filename : string)
    (src : list float) (sh : nat * nat * nat) (unshape : bool) (t : Z) :
  fs filename = Some src ->
  fst (fst sh) * snd (fst sh) * snd sh <> length src ->
  read_data fs filename (Some sh) unshape (Some t) (-1)
  = inl (reshape_error (length src) sh).
Proof.
  intros H Hne. destruct sh as [[d0 d1] d2]. cbn [fst snd] in Hne.
  unfold read_data, isfile, open_rb. rewrite H. cbn [negb].
  change (np_fromfile src (-1)) with src.
  unfold reshape_F. apply Nat.eqb_neq in Hne. rewrite Hne. reflexivity.
Qed.

(** X2: with a margin and a shape, [read_data] on an existing file raises
    the ValueError of [reshape] exactly when the shape does not multiply out
    to the number of values in the file; the margin plays no part in that. *)
Theorem read_data_reshape_error_iff (fs : store) (filename : string)
    (src : list float) (d0 d1 d2 : nat) (unshape : bool) (t : Z) :
  fs filename = Some src ->
  (d0 * d1 * d2 = length src ->
   exists a, read_data fs filename (Some (d0, d1, d2)) unshape (Some t) (-1)
             = inr a)
  /\ (d0 * d1 * d2 <> length src ->
      read_data fs filename (Some (d0, d1, d2)) unshape (Some t) (-1)
      = inl (ValueError ("cannot reshape array of size "
               ++ str_int (Z.of_nat (length src)) ++ " into shape ("
               ++ str_int (Z.of_nat d0) ++ "," ++ str_int (Z.of_nat d1) ++ ","
               ++ str_int (Z.of_nat d2) ++ ")")%string)).
Proof.
  intros H. split; intros Hlen.
  - unfold read_data, isfile, open_rb. rewrite H. cbn [negb].
    change (np_fromfile src (-1)) with src.
    unfold reshape_F. rewrite Hlen, Nat.eqb_refl. cbn [bind ret].
    destruct unshape; eexists; reflexivity.
  - apply (read_data_reshape_mismatch fs filename src (d0, d1, d2)); assumption.
Qed.

Lemma read_data_reshape_error_iff_witness :
  (exists a, read_data scenario_store "o_d__00001" (Some (10, 10, 10)) false
               (Some 3%Z) (-1) = inr a)
  /\ read_data scenario_store "o_d__00001" (Some (10, 10, 9)) true
       (Some 3%Z) (-1)
     = inl (ValueError "cannot reshape array of size 1000 into shape (10,10,9)").
Proof.
  split.
  - apply (proj1 (read_data_reshape_error_iff scenario_store "o_d__00001"
                    scenario_density 10 10 10 false 3 eq_refl)).
    reflexivity.
  - apply (proj2 (read_data_reshape_error_iff scenario_store "o_d__00001"
                    scenario_density 10 10 9 true 3 eq_refl)).
    vm_compute. discriminate.
Defined.

(** X3: a margin of at least one cell that leaves nothing of an axis is no
    error: a one-dimensional file of at most [2*m] values, or a volume with
    an axis of at most [2*m] cells, comes back as the empty array. *)
Theorem read_data_margin_too_large :
  (forall (fs : store) (filename : string) (src : list float) (m : nat),
      fs filename = Some src ->
      0 < m -> length src <= 2 * m ->
      read_data fs filename None true (Some (Z.of_nat m)) (-1) = inr (Arr1 []))
  /\ (forall (fs : store) (filename : string) (src : list float)
             (d0 d1 d2 m : nat),
      fs filename = Some src ->
      length src = d0 * d1 * d2 ->
      0 < m -> (d0 <= 2 * m \/ d1 <= 2 * m \/ d2 <= 2 * m) ->
      read_data fs filename (Some (d0, d1, d2)) true (Some (Z.of_nat m)) (-1)
      = inr (Arr1 [])).
Proof.
  split.
  - intros fs filename src m H Hm Hlen.
    rewrite (read_data_line _ _ _ _ H). do 2 f_equal.
    apply length_zero_iff_nil. rewrite py_slice_margin_length by assumption. lia.
  - intros fs filename src d0 d1 d2 m H Hlen Hm Hd.
    rewrite (read_data_volume _ _ _ _ _ _ _ H Hlen). do 2 f_equal.
    apply length_zero_iff_nil. rewrite trimmed_volume_length by assumption.
    destruct Hd as [Hd | [Hd | Hd]].
    + replace (d0 - 2 * m) with 0 by lia. reflexivity.
    + replace (d1 - 2 * m) with 0 by lia. lia.
    + replace (d2 - 2 * m) with 0 by lia. lia.
Qed.

Lemma read_data_margin_too_large_witness :
  read_data scenario_store "z_x1ap" None true (Some 5%Z) (-1) = inr (Arr1 [])
  /\ read_data scenario_store "o_d__00001" (Some (100, 2, 5)) true (Some 1%Z) (-1)
     = inr (Arr1 []).
Proof.
  split.
  - apply (proj1 read_data_margin_too_large scenario_store "z_x1ap"
             scenario_edges 5 eq_refl); vm_compute; repeat constructor.
  - apply (proj2 read_data_margin_too_large scenario_store "o_d__00001"
             scenario_density 100 2 5 1 eq_refl).
    + vm_compute. reflexivity.
    + repeat constructor.
    + right. left. repeat constructor.
Defined.

(** X4: with [unshape=False] the trimmed volume keeps its three axes in the
    order of the file: it has the shape [(d0-2m, d1-2m, d2-2m)], its element
    [(i, j, k)] is the element [(i+m, j+m, k+m)] of the file in column-major
    order, and the flat array of [unshape=True] is this volume with axes 1
    and 2 swapped, flattened in row-major order. *)
Theorem read_data_keeps_axes (fs : store) (filename : string)
    (src : list float) (d0 d1 d2 m : nat) :
  fs filename = Some src ->
  length src = d0 * d1 * d2 ->
  0 < m -> 2 * m <= d0 -> 2 * m <= d1 -> 2 * m <= d2 ->
  exists a,
    read_data fs filename (Some (d0, d1, d2)) false (Some (Z.of_nat m)) (-1)
      = inr (Arr3 a)
    /\ shape3 a = (d0 - 2 * m, d1 - 2 * m, d2 - 2 * m)
    /\ (forall i j k,
          item3 a i j k
          = nth ((i + m) + d0 * ((j + m) + d1 * (k + m))) src 0%float)
    /\ read_data fs filename (Some (d0, d1, d2)) true (Some (Z.of_nat m)) (-1)
       = inr (Arr1 (ravel3 (swapaxes12 a))).
Proof.
  intros H Hlen Hm H0 H1 H2.
  exists (slice3 (Z.of_nat m) (- Z.of_nat m)
            (mkArray3 src 0 (d0, d1, d2) (1, d0, d0 * d1))).
  split; [|split; [|split]].
  - unfold read_data, isfile, open_rb. rewrite H. cbn [negb].
    change (np_fromfile src (-1)) with src.
    unfold reshape_F. rewrite <- Hlen, Nat.eqb_refl. reflexivity.
  - unfold slice3. cbn [shape3 strides].
    rewrite !slice_bounds_margin by assumption. reflexivity.
  - intros i j k. unfold slice3, item3. cbn [shape3 strides buf offset].
    rewrite !slice_bounds_margin by assumption. cbn [strides buf offset].
    f_equal. nia.
  - rewrite (read_data_volume fs filename src d0 d1 d2 (Z.of_nat m) H Hlen).
    unfold trimmed_volume. reflexivity.
Qed.

Lemma read_data_keeps_axes_witness :
  exists a,
    read_data scenario_store "o_d__00001" (Some (10, 10, 10)) false
      (Some 3%Z) (-1) = inr (Arr3 a)
    /\ shape3 a = (4, 4, 4)
    /\ item3 a 1 2 3 = nth 654 scenario_density 0%float.
Proof.
  destruct (read_data_keeps_axes scenario_store "o_d__00001" scenario_density
              10 10 10 3 eq_refl eq_refl)
    as (a & Hread & Hshape & Hitem & _); try (repeat constructor).
  exists a. split; [exact Hread|]. split; [exact Hshape|]. apply Hitem.
Defined.

Lemma skipn_firstn_swap {A : Type} (m k : nat) (l : list A) :
  skipn m (firstn k l) = firstn (k - m) (skipn m l).
Proof.
  revert k l. induction m as [|m IH]; intros k l.
  - rewrite Nat.sub_0_r. reflexivity.
  - destruct k as [|k]; [reflexivity|].
    destruct l as [|x l]; [simpl; rewrite firstn_nil; reflexivity|].
    simpl. apply IH.
Qed.

(** X5: [entries] cuts the file before the ghost cells are removed: with
    [entries = k] and a margin [m], [read_data] returns [src[m : k-m]], the
    [k - 2*m] values that follow the first [m], and not the trimmed file cut
    to [k] values. *)
Theorem read_data_entries_then_margin (fs : store) (filename : string)
    (src : list float) (k m : nat) :
  fs filename = Some src ->
  0 < m -> 2 * m <= k -> k <= length src ->
  exists out,
    read_data fs filename None true (Some (Z.of_nat m)) (Z.of_nat k)
      = inr (Arr1 out)
    /\ out = firstn (k - 2 * m) (skipn m src)
    /\ length out = k - 2 * m.
Proof.
  intros H Hm Hk Hn.
  exists (py_slice (Z.of_nat m) (- Z.of_nat m) (firstn k src)).
  split; [|split].
  - unfold read_data, isfile, open_rb. rewrite H. cbn [negb bind ret].
    unfold np_fromfile.
    destruct (Z.ltb_spec (Z.of_nat k) 0) as [Hneg|_]; [lia|].
    rewrite Nat2Z.id. reflexivity.
  - rewrite py_slice_margin by (try rewrite length_firstn; lia).
    rewrite length_firstn, skipn_firstn_swap, firstn_firstn.
    f_equal. lia.
  - rewrite py_slice_margin_length by assumption.
    rewrite length_firstn. lia.
Qed.

Lemma read_data_entries_then_margin_witness :
  exists out,
    read_data scenario_store "z_x1ap" None true (Some 3%Z) 8 = inr (Arr1 out)
    /\ out = [3; 4]%float.
Proof.
  destruct (read_data_entries_then_margin scenario_store "z_x1ap"
              scenario_edges 8 3 eq_refl)
    as (out & Hread & Hout & _); try (vm_compute; repeat constructor).
  exists out. split; [exact Hread|]. rewrite Hout. vm_compute. reflexivity.
Defined.

(** ** More on write2grid *)

(** X6: a format other than "binary" and "ascii" is not an error for
    [write2grid]: the call returns normally and the file is left as it was,
    also for a value that [struct.pack] would refuse. *)
Theorem write2grid_unknown_format_is_silent (format_ : string) (t : dtype)
    (var : pyval) (endl : bool) (file_ : file) :
  format_ <> "binary" -> format_ <> "ascii" ->
  write2grid format_ t var endl file_ = (inr tt, file_).
Proof.
  intros Hb Ha. unfold write2grid.
  apply String.eqb_neq in Hb. apply String.eqb_neq in Ha.
  rewrite Hb, Ha. reflexivity.
Qed.

Lemma write2grid_unknown_format_is_silent_witness :
  write2grid "Binary" fmt_H (PyInt 70000) true (open_ "grid.dat" "wb")
  = (inr tt, open_ "grid.dat" "wb").
Proof.
  apply write2grid_unknown_format_is_silent; discriminate.
Defined.

(** X7: in binary mode an integer written with format "H" is stored when
    it lies in [0..65535] and otherwise raises [struct.error] (whatever its
    message, which varies with the Python version) with nothing written,
    whatever [endl] is; in ascii mode the same call always writes the
    token. *)
Theorem write2grid_ushort_range (n : Z) (endl : bool) (file_ : file) :
  ((0 <= n <= 65535)%Z ->
   write2grid "binary" fmt_H (PyInt n) endl file_
   = (inr tt, file_write file_ (Packed (UShort n))))
  /\ ((n < 0 \/ 65535 < n)%Z ->
      exists msg,
        write2grid "binary" fmt_H (PyInt n) endl file_
        = (inl (StructError msg), file_))
  /\ write2grid "ascii" fmt_H (PyInt n) endl file_
     = (inr tt, file_write file_ (Text (PyInt n) endl)).
Proof.
  unfold write2grid. cbn [String.eqb Ascii.eqb Bool.eqb struct_pack].
  split; [|split].
  - intros [H0 H1].
    destruct (Z.leb_spec 0 n); [|lia]. destruct (Z.leb_spec n 65535); [|lia].
    reflexivity.
  - intros H.
    destruct (Z.leb_spec 0 n); destruct (Z.leb_spec n 65535); try lia;
      cbn [andb]; destruct ((- 2 ^ 63 <=? n) && (n <? 2 ^ 63))%Z;
      eexists; reflexivity.
  - reflexivity.
Qed.

Lemma write2grid_ushort_range_witness :
  write2grid "binary" fmt_H (PyInt 65535) true (open_ "grid.dat" "wb")
  = (inr tt, file_write (open_ "grid.dat" "wb") (Packed (UShort 65535)))
  /\ exists msg,
       write2grid "binary" fmt_H (PyInt 65536) true (open_ "grid.dat" "wb")
       = (inl (StructError msg), open_ "grid.dat" "wb").
Proof.
  split.
  - apply (proj1 (write2grid_ushort_range 65535 true _)). lia.
  - apply (proj1 (proj2 (write2grid_ushort_range 65536 true _))). lia.
Defined.

(** ** The cell widths *)

Lemma np_diff_length (l : list float) : length (np_diff l) = length l - 1.
Proof.
  induction l as [|x [|y t] IH]; try reflexivity.
  change (np_diff (x :: y :: t)) with ((y - x)%float :: np_diff (y :: t)).
  cbn [length] in *. rewrite IH. lia.
Qed.

Lemma np_diff_nth (l : list float) (i : nat) :
  i + 1 < length l ->
  nth i (np_diff l) 0%float = (nth (i + 1) l 0 - nth i l 0)%float.
Proof.
  revert i. induction l as [|x [|y t] IH]; intros i Hi; cbn [length] in Hi;
    try lia.
  change (np_diff (x :: y :: t)) with ((y - x)%float :: np_diff (y :: t)).
  destruct i as [|i]; [reflexivity|].
  cbn [nth]. rewrite IH by (cbn [length]; lia).
  replace (S i + 1) with (S (i + 1)) by lia. reflexivity.
Qed.

(** X8: the widths [dr], [dth] and [dph] that [zeus2polaris] computes are
    the differences of consecutive edges, and each axis has one width fewer
    than the cell count [n_r], [n_th], [n_ph] the program declares for it. *)
Theorem cell_widths (g : grid) :
  length (dr g) = n_r g - 1
  /\ length (dth g) = n_th g - 1
  /\ length (dph g) = n_ph g - 1
  /\ (forall i, i + 1 < n_r g ->
        nth i (dr g) 0%float = (nth (i + 1) (r_e g) 0 - nth i (r_e g) 0)%float)
  /\ (forall i, i + 1 < n_th g ->
        nth i (dth g) 0%float = (nth (i + 1) (th_e g) 0 - nth i (th_e g) 0)%float)
  /\ (forall i, i + 1 < n_ph g ->
        nth i (dph g) 0%float = (nth (i + 1) (ph_e g) 0 - nth i (ph_e g) 0)%float).
Proof.
  unfold dr, dth, dph, n_r, n_th, n_ph.
  repeat split; try apply np_diff_length; intros i Hi; apply np_diff_nth;
    assumption.
Qed.

Lemma cell_widths_witness :
  length (dr (fst scenario_loaded)) = 3
  /\ nth 2 (dr (fst scenario_loaded)) 0%float = (6 - 5)%float.
Proof.
  destruct (cell_widths (fst scenario_loaded)) as (Hlen & _ & _ & Hnth & _).
  split; [exact Hlen|]. apply (Hnth 2). vm_compute. repeat constructor.
Defined.

(** ** Which exception a frame that does not load raises *)

Lemma frame_edges_present (fs : store) (name : string) (src : list float) :
  fs name = Some src ->
  frame_edges fs name = py_slice (Z.of_nat nghost) (- Z.of_nat nghost) src.
Proof. intros H. unfold frame_edges, open_rb. rewrite H. reflexivity. Qed.

Ltac read_edges_step fs name :=
  let src := fresh "src" in
  let E := fresh "E" in
  destruct (fs name) as [src|] eqn:E; cbn [negb];
  [ rewrite (read_data_line _ _ _ _ E), (frame_edges_present _ _ _ E);
    cbn [bind]
  | rewrite (read_data_missing _ _ _ _ _ _ E); reflexivity ].

Lemma read_grid_outcome (fs : store) :
  match find (fun name => negb (isfile fs name)) coordinate_files with
  | Some name => read_grid fs = inl (missing_file_error name)
  | None =>
      read_grid fs
      = inr (mkGrid (frame_edges fs "z_x1ap") (frame_edges fs "z_x2ap")
                    (frame_edges fs "z_x3ap") (frame_edges fs "z_x1bp")
                    (frame_edges fs "z_x2bp") (frame_edges fs "z_x3bp"))
  end.
Proof.
  unfold coordinate_files, read_grid, missing_file_error. cbn [find].
  unfold isfile.
  read_edges_step fs "z_x1ap". read_edges_step fs "z_x2ap".
  read_edges_step fs "z_x3ap". read_edges_step fs "z_x1bp".
  read_edges_step fs "z_x2bp". read_edges_step fs "z_x3bp".
  reflexivity.
Qed.






(** ** Runs that stop after the output was opened *)

Lemma run_stops_at_empty_axis (fs : store)
    (nframe output_grid : string) (verbose : bool) (grid_format : string)
    (g : grid) (q : fields) :
  load fs nframe = inr (g, q) ->
  valid_format grid_format ->
  n_r g = 0 ->
  zeus2polaris fs nframe output_grid verbose grid_format
  = (inl (IndexError "index 0 is out of bounds for axis 0 with size 0"),
     Some (mkFile (output_name output_grid grid_format)
                  (output_mode grid_format)
                  (header_items grid_format) false)).
Proof.
  intros Hload Hv Hn. unfold zeus2polaris.
  rewrite Hload, (open_grid_valid _ _ Hv). unfold write_grid.
  rewrite (writes_then _ _ (write_header_writes _ Hv)).
  unfold write_parameters.
  unfold n_r in Hn. apply length_zero_iff_nil in Hn. rewrite Hn.
  reflexivity.
Qed.

(** X10: a frame whose radial axis has no cell left after trimming loads,
    and its output is opened and given the header; then [r_e[0]] raises
    IndexError, and the file is left with the header only and is not
    closed. *)
Theorem zeus2polaris_empty_radial_axis (fs : store)
    (nframe output_grid : string) (verbose : bool) (grid_format : string)
    (g : grid) (q : fields) :
  load fs nframe = inr (g, q) ->
  valid_format grid_format ->
  n_r g = 0 ->
  zeus2polaris fs nframe output_grid verbose grid_format
  = (inl (IndexError "index 0 is out of bounds for axis 0 with size 0"),
     Some (mkFile (output_name output_grid grid_format)
                  (output_mode grid_format)
                  (header_items grid_format) false)).
Proof. apply run_stops_at_empty_axis. Qed.

Lemma empty_load :
  load empty_store "00001" = inr (fst empty_loaded, snd empty_loaded).
Proof. vm_compute. reflexivity. Qed.

Lemma zeus2polaris_empty_radial_axis_witness :
  zeus2polaris empty_store "00001" "grid" true "ascii"
  = (inl (IndexError "index 0 is out of bounds for axis 0 with size 0"),
     Some (mkFile "grid.txt" "w"
             [Text (PyInt 30) true; Text (PyInt 2) true; Text (PyInt 28) true;
              Text (PyInt 29) true] false)).
Proof.
  apply (zeus2polaris_empty_radial_axis empty_store "00001" "grid" true "ascii"
           (fst empty_loaded) (snd empty_loaded) empty_load).
  - right. reflexivity.
  - reflexivity.
Defined.

Lemma io_bind_assoc {A B C : Type} (m : io A) (k : A -> io B) (h : B -> io C)
    (file_ : file) :
  io_bind (io_bind m k) h file_ = io_bind m (fun a => io_bind (k a) h) file_.
Proof.
  unfold io_bind. destruct (m file_) as [[e|a] file']; reflexivity.
Qed.

Lemma io_bind_lift {A B : Type} (a : A) (k : A -> io B) (file_ : file) :
  io_bind (lift (inr a)) k file_ = k a file_.
Proof. reflexivity. Qed.

Lemma io_bind_raise {A B : Type} (m : io A) (k : A -> io B) (e : exn)
    (file_ file' : file) :
  m file_ = (inl e, file') -> io_bind m k file_ = (inl e, file').
Proof. intros H. unfold io_bind. rewrite H. reflexivity. Qed.

Lemma write2grid_ushort_overflow (n : Z) (endl : bool) (file_ : file) :
  (65535 < n)%Z ->
  exists msg,
    write2grid "binary" fmt_H (PyInt n) endl file_
    = (inl (StructError msg), file_).
Proof.
  intros H. unfold write2grid. cbn [String.eqb Ascii.eqb Bool.eqb struct_pack].
  destruct (Z.leb_spec 0 n); destruct (Z.leb_spec n 65535); try lia;
    destruct ((- 2 ^ 63 <=? n) && (n <? 2 ^ 63))%Z; eexists; reflexivity.
Qed.

(** The write of a count that does not fit ends the run. *)
Ltac stop_at_overflow H :=
  match goal with
  | |- context [io_bind (write2grid "binary" fmt_H (PyInt ?n) ?e) _ ?f] =>
      let msg := fresh "msg" in
      let Hw := fresh "Hw" in
      destruct (write2grid_ushort_overflow n e f H) as [msg Hw];
      exists msg; rewrite (io_bind_raise _ _ _ _ _ Hw); reflexivity
  end.

Lemma run_stops_at_overflow (fs : store) (nframe output_grid : string)
    (verbose : bool) (g : grid) (q : fields) :
  load fs nframe = inr (g, q) ->
  1 <= n_r g ->
  (65535 < Z.of_nat (n_r g) \/ 65535 < Z.of_nat (n_ph g)
   \/ 65535 < Z.of_nat (n_th g))%Z ->
  exists inner outer msg,
    zeus2polaris fs nframe output_grid verbose "binary"
    = (inl (StructError msg),
       Some (mkFile (output_grid ++ ".dat")%string "wb"
               (header_items "binary"
                ++ firstn (fields_before_overflow g)
                     (parameter_items "binary" inner outer
                        (n_r g) (n_ph g) (n_th g)))
               false)).
Proof.
  intros Hload Hn Hover.
  destruct (load_radii _ _ _ _ Hload Hn) as (src & Hsrc & _ & _ & Hin & Hout).
  exists (nth nghost src 0%float), (nth (length src - nghost) src 0%float).
  assert (Hv : valid_format "binary") by (left; reflexivity).
  unfold zeus2polaris. rewrite Hload, (open_grid_valid _ _ Hv).
  unfold write_grid.
  rewrite (writes_then _ _ (write_header_writes _ Hv)).
  unfold write_parameters.
  rewrite io_bind_assoc, Hin, io_bind_lift.
  rewrite io_bind_assoc, (writes_then _ _ (write2grid_double "binary" _ false Hv)).
  rewrite io_bind_assoc, (read_data_untrimmed _ _ _ Hsrc), io_bind_lift.
  cbn [np_ravel].
  rewrite io_bind_assoc, Hout, io_bind_lift.
  rewrite io_bind_assoc, (writes_then _ _ (write2grid_double "binary" _ true Hv)).
  rewrite !file_append_app. cbn [app].
  unfold fields_before_overflow.
  destruct (Z.ltb_spec 65535 (Z.of_nat (n_r g))) as [H1|H1].
  { rewrite io_bind_assoc. stop_at_overflow H1. }
  rewrite io_bind_assoc,
    (writes_then _ _ (write2grid_ushort "binary" (Z.of_nat (n_r g)) false Hv
                        ltac:(intros _; lia))).
  rewrite !file_append_app. cbn [app].
  destruct (Z.ltb_spec 65535 (Z.of_nat (n_ph g))) as [H2|H2].
  { rewrite io_bind_assoc. stop_at_overflow H2. }
  rewrite io_bind_assoc,
    (writes_then _ _ (write2grid_ushort "binary" (Z.of_nat (n_ph g)) false Hv
                        ltac:(intros _; lia))).
  rewrite !file_append_app. cbn [app].
  assert (H3 : (65535 < Z.of_nat (n_th g))%Z) by lia.
  rewrite io_bind_assoc. stop_at_overflow H3.
Qed.

(** X11: in binary mode a frame with more than 65535 cells along an axis
    cannot be written: the first such count makes [struct.pack] raise
    [struct.error] (whatever its message), and the file is left, not
    closed, with the header, the two radii and the counts written before
    it. *)
Theorem zeus2polaris_count_overflow (fs : store) (nframe output_grid : string)
    (verbose : bool) (g : grid) (q : fields) :
  load fs nframe = inr (g, q) ->
  1 <= n_r g ->
  (65535 < Z.of_nat (n_r g) \/ 65535 < Z.of_nat (n_ph g)
   \/ 65535 < Z.of_nat (n_th g))%Z ->
  exists inner outer msg,
    zeus2polaris fs nframe output_grid verbose "binary"
    = (inl (StructError msg),
       Some (mkFile (output_grid ++ ".dat")%string "wb"
               (header_items "binary"
                ++ firstn (fields_before_overflow g)
                     (parameter_items "binary" inner outer
                        (n_r g) (n_ph g) (n_th g)))
               false)).
Proof. apply run_stops_at_overflow. Qed.

Lemma wide_edges_length :
  length (frame_edges wide_store "z_x1ap") = Z.to_nat 65536.
Proof.
  rewrite (frame_edges_present wide_store "z_x1ap" wide_edges eq_refl).
  rewrite py_slice_margin_length by (unfold nghost; lia).
  unfold wide_edges. rewrite repeat_length. unfold nghost. lia.
Qed.

Lemma wide_shape : frame_shape wide_store = (Z.to_nat 65542, 6, 6).
Proof.
  unfold frame_shape. rewrite wide_edges_length.
  change (length (frame_edges wide_store "z_x3ap")) with 0.
  change (length (frame_edges wide_store "z_x2ap")) with 0.
  replace (Z.to_nat 65536 + 2 * nghost) with (Z.to_nat 65542)
    by (unfold nghost; lia).
  reflexivity.
Qed.

Lemma wide_read (name : string) :
  wide_store name = Some wide_volume ->
  read_data wide_store name (Some (frame_shape wide_store)) true
    (Some (Z.of_nat nghost)) (-1)
  = inr (Arr1 (trimmed_volume wide_volume (frame_shape wide_store)
                 (Z.of_nat nghost))).
Proof.
  intros H. rewrite wide_shape. apply read_data_volume; [exact H|].
  unfold wide_volume. apply repeat_length.
Qed.

Lemma wide_load : load wide_store "00001" = inr (wide_grid, wide_fields).
Proof.
  unfold load.
  pose proof (read_grid_outcome wide_store) as Hg.
  change (find (fun name => negb (isfile wide_store name)) coordinate_files)
    with (@None string) in Hg.
  rewrite Hg. cbn [bind]. fold wide_grid.
  assert (Hshape : shape wide_grid = frame_shape wide_store) by reflexivity.
  rewrite Hshape. unfold read_fields, wide_fields.
  rewrite (wide_read ("o_d__" ++ "00001") eq_refl).
  rewrite (wide_read ("o_v1_" ++ "00001") eq_refl).
  rewrite (wide_read ("o_v2_" ++ "00001") eq_refl).
  rewrite (wide_read ("o_v3_" ++ "00001") eq_refl).
  rewrite (wide_read ("o_b1_" ++ "00001") eq_refl).
  rewrite (wide_read ("o_b2_" ++ "00001") eq_refl).
  rewrite (wide_read ("o_b3_" ++ "00001") eq_refl).
  reflexivity.
Qed.

Lemma zeus2polaris_count_overflow_witness :
  exists inner outer msg,
    zeus2polaris wide_store "00001" "grid" true "binary"
    = (inl (StructError msg),
       Some (mkFile "grid.dat" "wb"
               [Packed (UShort 30); Packed (UShort 2); Packed (UShort 28);
                Packed (UShort 29); Packed (Double inner);
                Packed (Double outer)]
               false)).
Proof.
  assert (Hn : n_r wide_grid = Z.to_nat 65536) by apply wide_edges_length.
  destruct (zeus2polaris_count_overflow wide_store "00001" "grid" true
              wide_grid wide_fields wide_load)
    as (inner & outer & msg & Hrun).
  - rewrite Hn. lia.
  - left. rewrite Hn. lia.
  - exists inner, outer, msg. rewrite Hrun.
    unfold fields_before_overflow. rewrite Hn. reflexivity.
Defined.

(** ** When a run succeeds, and what it leaves otherwise *)

(** Once the output is open, a run on a frame that loads finishes without
    exception exactly when the radial axis has at least one cell and, in
    binary mode, the three counts fit two bytes; the file is closed exactly
    in that case. *)
Lemma run_success_iff (fs : store) (nframe output_grid : string)
    (verbose : bool) (grid_format : string) (g : grid) (q : fields) :
  load fs nframe = inr (g, q) ->
  valid_format grid_format ->
  exists r file_,
    zeus2polaris fs nframe output_grid verbose grid_format = (r, Some file_)
    /\ (r = inr tt <-> 1 <= n_r g /\ counts_fit grid_format g)
    /\ (closed file_ = true <-> r = inr tt)
    /\ name file_
       = (output_grid ++ (if String.eqb grid_format "binary"
                          then ".dat" else ".txt"))%string
    /\ mode file_ = (if String.eqb grid_format "binary" then "wb" else "w").
Proof.
  intros Hload Hv.
  destruct (Nat.eq_dec (n_r g) 0) as [H0|H0].
  { eexists _, _. split.
    - apply (run_stops_at_empty_axis _ _ _ _ _ _ _ Hload Hv H0).
    - cbn [closed name mode].
      split; [split; [discriminate | intros [H _]; lia]|].
      split; [split; discriminate|]. split; reflexivity. }
  assert (Hn : 1 <= n_r g) by lia.
  assert (Hdec : counts_fit grid_format g
                 \/ (grid_format = "binary"
                     /\ (65535 < Z.of_nat (n_r g) \/ 65535 < Z.of_nat (n_ph g)
                         \/ 65535 < Z.of_nat (n_th g))%Z)).
  { destruct Hv as [-> | ->].
    - destruct (Z_le_gt_dec (Z.of_nat (n_r g)) 65535);
        destruct (Z_le_gt_dec (Z.of_nat (n_ph g)) 65535);
        destruct (Z_le_gt_dec (Z.of_nat (n_th g)) 65535);
        try (left; intros _; lia);
        right; (split; [reflexivity | lia]).
    - left. intros H. discriminate H. }
  destruct Hdec as [Hfit | [-> Hover]].
  - destruct (zeus2polaris_success fs nframe output_grid verbose grid_format
                g q Hload Hv Hfit Hn) as (src & _ & _ & _ & Hrun).
    eexists _, _. split; [exact Hrun|]. cbn [closed name mode].
    split; [split; [intros _; split; assumption | reflexivity]|].
    split; [split; reflexivity|]. split; reflexivity.
  - destruct (run_stops_at_overflow fs nframe output_grid verbose g q
                Hload Hn Hover) as (inner & outer & msg & Hrun).
    eexists _, _. split; [exact Hrun|]. cbn [closed name mode].
    split; [split; [discriminate | intros [_ Hfit]]|].
    + specialize (Hfit eq_refl). lia.
    + split; [split; discriminate|]. split; reflexivity.
Qed.

(** A run whose output can be opened is the run of [zeus2polaris]. *)
Lemma zeus2polaris_opening_opens (open_error : string -> option exn)
    (fs : store) (nframe output_grid : string) (verbose : bool)
    (grid_format : string) :
  open_error (output_name output_grid grid_format) = None ->
  zeus2polaris_opening open_error fs nframe output_grid verbose grid_format
  = zeus2polaris fs nframe output_grid verbose grid_format.
Proof.
  intros Hopen. unfold zeus2polaris_opening, zeus2polaris.
  destruct (load fs nframe) as [e|[g q]]; [reflexivity|].
  unfold open_grid, output_name, is_binary in *.
  destruct (String.eqb grid_format "binary").
  - cbn [ret name open_]. rewrite Hopen. reflexivity.
  - destruct (String.eqb grid_format "ascii"); [|reflexivity].
    cbn [ret name open_]. rewrite Hopen. reflexivity.
Qed.

(** A run whose output cannot be opened raises the exception of [open],
    after the inputs have been read, and leaves no file. *)
Lemma zeus2polaris_opening_fails (open_error : string -> option exn)
    (fs : store) (nframe output_grid : string) (verbose : bool)
    (grid_format : string) (g : grid) (q : fields) (e : exn) :
  load fs nframe = inr (g, q) ->
  valid_format grid_format ->
  open_error (output_name output_grid grid_format) = Some e ->
  zeus2polaris_opening open_error fs nframe output_grid verbose grid_format
  = (inl e, None).
Proof.
  intros Hload Hv Hopen. unfold zeus2polaris_opening.
  rewrite Hload, (open_grid_valid _ _ Hv). cbn [name open_].
  rewrite Hopen. reflexivity.
Qed.

(** X12: for a frame that loads and a recognised format, everything depends
    on the [open] of the output.  When it raises, the run raises that
    exception and leaves no file.  When it succeeds, the run finishes
    without exception exactly when the radial axis has at least one cell
    and, in binary mode, the three counts fit two bytes; the output file
    is closed exactly in that case, and in every case it carries the name
    and the open mode of its format. *)
Theorem zeus2polaris_success_iff (open_error : string -> option exn)
    (fs : store) (nframe output_grid : string)
    (verbose : bool) (grid_format : string) (g : grid) (q : fields) :
  load fs nframe = inr (g, q) ->
  valid_format grid_format ->
  let path :=
    (output_grid ++ (if String.eqb grid_format "binary"
                     then ".dat" else ".txt"))%string in
  (forall e, open_error path = Some e ->
     zeus2polaris_opening open_error fs nframe output_grid verbose grid_format
     = (inl e, None))
  /\ (open_error path = None ->
      exists r file_,
        zeus2polaris_opening open_error fs nframe output_grid verbose
          grid_format = (r, Some file_)
        /\ (r = inr tt <-> 1 <= n_r g /\ counts_fit grid_format g)
        /\ (closed file_ = true <-> r = inr tt)
        /\ name file_ = path
        /\ mode file_
           = (if String.eqb grid_format "binary" then "wb" else "w")).
Proof.
  intros Hload Hv path. split.
  - intros e Hopen.
    apply (zeus2polaris_opening_fails _ _ _ _ _ _ g q e Hload Hv Hopen).
  - intros Hopen.
    rewrite (zeus2polaris_opening_opens _ _ _ _ _ _ Hopen).
    apply (run_success_iff _ _ _ _ _ g q Hload Hv).
Qed.

Lemma zeus2polaris_success_iff_witness :
  (exists file_,
     zeus2polaris_opening (fun _ => None) scenario_store "00001" "grid" true
       "binary" = (inr tt, Some file_)
     /\ closed file_ = true /\ name file_ = "grid.dat" /\ mode file_ = "wb")
  /\ (exists e file_,
     zeus2polaris_opening (fun _ => None) empty_store "00001" "grid" true
       "ascii" = (inl e, Some file_)
     /\ closed file_ = false /\ name file_ = "grid.txt" /\ mode file_ = "w")
  /\ (exists e,
     zeus2polaris_opening (missing_directory "polaris_grid/") scenario_store
       "00001" "polaris_grid/grid" true "binary" = (inl e, None)).
Proof.
  split; [|split].
  - destruct (proj2 (zeus2polaris_success_iff (fun _ => None) scenario_store
                "00001" "grid" true "binary" (fst scenario_loaded)
                (snd scenario_loaded) scenario_load (or_introl eq_refl))
                eq_refl)
      as (r & file_ & Hrun & Hr & Hc & Hname & Hmode).
    assert (E : r = inr tt).
    { apply Hr. split; [vm_compute; repeat constructor|].
      intros _. vm_compute. repeat split; discriminate. }
    subst r. exists file_. split; [exact Hrun|].
    split; [apply Hc; reflexivity|]. split; [exact Hname | exact Hmode].
  - destruct (proj2 (zeus2polaris_success_iff (fun _ => None) empty_store
                "00001" "grid" true "ascii" (fst empty_loaded)
                (snd empty_loaded) empty_load (or_intror eq_refl))
                eq_refl)
      as (r & file_ & Hrun & Hr & Hc & Hname & Hmode).
    destruct r as [e|[]].
    + exists e, file_. split; [exact Hrun|].
      split; [|split; [exact Hname | exact Hmode]].
      destruct (closed file_); [|reflexivity].
      destruct Hc as [Hc _]. discriminate (Hc eq_refl).
    + exfalso. destruct Hr as [Hr _]. destruct (Hr eq_refl) as [Hn _].
      vm_compute in Hn. inversion Hn.
  - eexists.
    apply (proj1 (zeus2polaris_success_iff (missing_directory "polaris_grid/")
                    scenario_store "00001" "polaris_grid/grid" true "binary"
                    (fst scenario_loaded) (snd scenario_loaded)
                    scenario_load (or_introl eq_refl))).
    reflexivity.
Defined.

(** ** The size and the content of a finished file *)

Lemma file_bytes_app (l1 l2 : list item) :
  file_bytes (l1 ++ l2) = file_bytes l1 + file_bytes l2.
Proof. unfold file_bytes. rewrite map_app, list_sum_app. reflexivity. Qed.

Lemma file_lines_app (l1 l2 : list item) :
  file_lines (l1 ++ l2) = file_lines l1 + file_lines l2.
Proof. unfold file_lines. rewrite filter_app, length_app. reflexivity. Qed.

Lemma item_values_app (l1 l2 : list item) :
  item_values (l1 ++ l2) = item_values l1 ++ item_values l2.
Proof. unfold item_values. apply flat_map_app. Qed.

Lemma edge_items_bytes (edges : list float) :
  file_bytes (edge_items "binary" edges) = 8 * (length edges - 1).
Proof.
  unfold edge_items. cbn [is_binary String.eqb Ascii.eqb Bool.eqb].
  rewrite app_nil_r. rewrite <- length_skipn.
  induction (skipn 1 edges) as [|x l IH]; [reflexivity|].
  cbn [map length]. change (file_bytes (?a :: ?b)) with (item_bytes a + file_bytes b).
  rewrite IH. cbn. lia.
Qed.

Lemma edge_items_lines (edges : list float) :
  file_lines (edge_items "ascii" edges) = 1.
Proof.
  unfold edge_items. cbn [is_binary String.eqb Ascii.eqb Bool.eqb].
  rewrite file_lines_app.
  replace (file_lines (map (fun x => double_item "ascii" x false) (skipn 1 edges)))
    with 0; [reflexivity|].
  induction (skipn 1 edges) as [|x l IH]; [reflexivity | exact IH].
Qed.

Lemma edge_items_values (edges : list float) :
  item_values (edge_items "ascii" edges) = skipn 1 edges
  /\ item_values (edge_items "binary" edges) = skipn 1 edges.
Proof.
  unfold edge_items. cbn [is_binary String.eqb Ascii.eqb Bool.eqb].
  rewrite !item_values_app. cbn [item_values flat_map item_value].
  rewrite !app_nil_r.
  split; induction (skipn 1 edges) as [|x l IH]; try reflexivity;
    cbn; f_equal; exact IH.
Qed.

Lemma edge_items_packed (edges : list float) :
  Forall (fun x => exists b, x = Packed b) (edge_items "binary" edges).
Proof.
  unfold edge_items. apply Forall_app. split; [|constructor].
  apply Forall_forall. intros x Hx. apply in_map_iff in Hx.
  destruct Hx as (y & <- & _). eexists. reflexivity.
Qed.

Lemma edge_items_text (edges : list float) :
  Forall (fun x => exists var endl, x = Text var endl) (edge_items "ascii" edges).
Proof.
  unfold edge_items. apply Forall_app.
  split; [|repeat constructor; eexists _, _; reflexivity].
  apply Forall_forall. intros x Hx. apply in_map_iff in Hx.
  destruct Hx as (y & <- & _). eexists _, _. reflexivity.
Qed.

Lemma cell_records_bytes_gen (rho : list float) (cells : list nat) :
  file_bytes
    (concat (map (fun cell => cell_record "binary" (nth cell rho 0%float)) cells))
  = 16 * length cells.
Proof.
  induction cells as [|c l IH]; [reflexivity|].
  cbn [map concat length]. rewrite file_bytes_app, IH. cbn. lia.
Qed.

Lemma cell_records_lines_gen (rho : list float) (cells : list nat) :
  file_lines
    (concat (map (fun cell => cell_record "ascii" (nth cell rho 0%float)) cells))
  = length cells.
Proof.
  induction cells as [|c l IH]; [reflexivity|].
  cbn [map concat length]. rewrite file_lines_app, IH. reflexivity.
Qed.

Lemma cell_records_values_gen (grid_format : string) (rho : list float)
    (cells : list nat) :
  valid_format grid_format ->
  item_values
    (concat (map (fun cell => cell_record grid_format (nth cell rho 0%float)) cells))
  = flat_map (fun cell => [nth cell rho 0; 0.01 * nth cell rho 0]%float) cells.
Proof.
  intros Hv. induction cells as [|c l IH]; [reflexivity|].
  cbn [map concat flat_map]. rewrite item_values_app, IH.
  destruct Hv as [-> | ->]; reflexivity.
Qed.

(** X13: a finished binary file has two bytes for each of the seven
    integers of the header and of the counts and eight bytes for every
    other field: 14 + 8 * (5 + (n_r - 1) + (n_ph - 1) + (n_th - 1)
    + 2 * n_cells + 2) bytes in all. *)
Theorem binary_file_size (fs : store) (nframe output_grid : string)
    (verbose : bool) (g : grid) (q : fields) :
  load fs nframe = inr (g, q) ->
  counts_fit "binary" g ->
  1 <= n_r g ->
  exists file_,
    zeus2polaris fs nframe output_grid verbose "binary" = (inr tt, Some file_)
    /\ Forall (fun x => exists b, x = Packed b) (contents file_)
    /\ file_bytes (contents file_)
       = 14 + 8 * (5 + (n_r g - 1) + (n_ph g - 1) + (n_th g - 1)
                   + 2 * n_cells g + 2).
Proof.
  intros Hload Hfit Hn.
  destruct (zeus2polaris_success fs nframe output_grid verbose "binary" g q
              Hload (or_introl eq_refl) Hfit Hn)
    as (src & _ & _ & _ & Hrun).
  eexists. split; [exact Hrun|]. cbn [contents]. unfold grid_items. split.
  - apply Forall_app; split; [repeat constructor; eexists; reflexivity|].
    apply Forall_app; split; [repeat constructor; eexists; reflexivity|].
    apply Forall_app; split; [apply edge_items_packed|].
    apply Forall_app; split; [apply edge_items_packed|].
    apply Forall_app; split; [apply edge_items_packed|].
    apply Forall_app; split; [|repeat constructor; eexists; reflexivity].
    apply Forall_forall. intros x Hx. apply in_concat in Hx.
    destruct Hx as (record & Hrec & Hx). unfold cell_records in Hrec.
    apply in_map_iff in Hrec. destruct Hrec as (c & <- & _).
    destruct Hx as [<- | [<- | []]]; eexists; reflexivity.
  - rewrite !file_bytes_app, !edge_items_bytes.
    unfold cell_records. rewrite cell_records_bytes_gen, length_seq.
    unfold n_r, n_ph, n_th. cbn. lia.
Qed.

Lemma binary_file_size_witness :
  exists file_,
    zeus2polaris scenario_store "00001" "grid" true "binary"
      = (inr tt, Some file_)
    /\ file_bytes (contents file_) = 14 + 8 * (5 + 3 + 3 + 3 + 2 * 64 + 2).
Proof.
  destruct (binary_file_size scenario_store "00001" "grid" true
              (fst scenario_loaded) (snd scenario_loaded) scenario_load)
    as (file_ & Hrun & _ & Hsize).
  - intros _. vm_compute. repeat split; discriminate.
  - vm_compute. repeat constructor.
  - exists file_. split; [exact Hrun | exact Hsize].
Defined.

Lemma ascii_items_are_text (g : grid) (q : fields) (inner outer : float) :
  Forall (fun x => exists var endl, x = Text var endl)
         (grid_items "ascii" g q inner outer).
Proof.
  unfold grid_items.
  apply Forall_app; split; [repeat constructor; eexists _, _; reflexivity|].
  apply Forall_app; split; [repeat constructor; eexists _, _; reflexivity|].
  apply Forall_app; split; [apply edge_items_text|].
  apply Forall_app; split; [apply edge_items_text|].
  apply Forall_app; split; [apply edge_items_text|].
  apply Forall_app; split; [|repeat constructor; eexists _, _; reflexivity].
  apply Forall_forall. intros x Hx. apply in_concat in Hx.
  destruct Hx as (record & Hrec & Hx). unfold cell_records in Hrec.
  apply in_map_iff in Hrec. destruct Hrec as (c & <- & _).
  destruct Hx as [<- | [<- | []]]; eexists _, _; reflexivity.
Qed.

(** X14: a finished ascii file has [n_cells + 13] lines: four for the
    header, one for the radii, one for the counts, three for the shape
    parameters, one for each edge sequence, one for each cell and one for
    the central cell. *)
Theorem ascii_file_lines (fs : store) (nframe output_grid : string)
    (verbose : bool) (g : grid) (q : fields) :
  load fs nframe = inr (g, q) ->
  1 <= n_r g ->
  exists file_,
    zeus2polaris fs nframe output_grid verbose "ascii" = (inr tt, Some file_)
    /\ Forall (fun x => exists var endl, x = Text var endl) (contents file_)
    /\ file_lines (contents file_) = n_cells g + 13.
Proof.
  intros Hload Hn.
  assert (Hfit : counts_fit "ascii" g) by (intros H; discriminate H).
  destruct (zeus2polaris_success fs nframe output_grid verbose "ascii" g q
              Hload (or_intror eq_refl) Hfit Hn)
    as (src & _ & _ & _ & Hrun).
  eexists. split; [exact Hrun|]. cbn [contents]. split.
  - apply ascii_items_are_text.
  - unfold grid_items. rewrite !file_lines_app, !edge_items_lines.
    unfold cell_records. rewrite cell_records_lines_gen, length_seq.
    cbn. lia.
Qed.

Lemma ascii_file_lines_witness :
  exists file_,
    zeus2polaris scenario_store "00001" "grid" true "ascii"
      = (inr tt, Some file_)
    /\ file_lines (contents file_) = 64 + 13.
Proof.
  destruct (ascii_file_lines scenario_store "00001" "grid" true
              (fst scenario_loaded) (snd scenario_loaded) scenario_load)
    as (file_ & Hrun & _ & Hlines).
  - vm_compute. repeat constructor.
  - exists file_. split; [exact Hrun | exact Hlines].
Defined.

Lemma float_of_int_zero : float_of_int 0 = 0%float.
Proof. vm_compute. reflexivity. Qed.

Lemma grid_items_values (grid_format : string) (g : grid) (q : fields)
    (inner outer : float) :
  valid_format grid_format ->
  item_values (grid_items grid_format g q inner outer)
  = grid_values g q inner outer.
Proof.
  intros Hv. unfold grid_items, grid_values, cell_records.
  rewrite !item_values_app, cell_records_values_gen by assumption.
  assert (He : forall edges,
             item_values (edge_items grid_format edges) = skipn 1 edges).
  { intros edges. destruct (edge_items_values edges) as [Ha Hb].
    destruct Hv as [-> | ->]; assumption. }
  rewrite !He.
  destruct Hv as [-> | ->]; cbn [header_items parameter_items central_cell
    item_values flat_map item_value ushort_item double_item zero_item
    is_binary String.eqb Ascii.eqb Bool.eqb app map];
    rewrite ?float_of_int_zero; reflexivity.
Qed.

(** X15: written from the same frame, the binary file and the ascii file
    carry the same numbers in the same order: the header, the geometry
    record, the edges of each axis but the first, the two values of every
    cell and the two zeros of the central cell. *)
Theorem both_formats_same_values (fs : store) (nframe output_grid : string)
    (verbose : bool) (g : grid) (q : fields) :
  load fs nframe = inr (g, q) ->
  counts_fit "binary" g ->
  1 <= n_r g ->
  exists fb fa inner outer,
    zeus2polaris fs nframe output_grid verbose "binary" = (inr tt, Some fb)
    /\ zeus2polaris fs nframe output_grid verbose "ascii" = (inr tt, Some fa)
    /\ item_values (contents fb) = item_values (contents fa)
    /\ item_values (contents fa) = grid_values g q inner outer.
Proof.
  intros Hload Hfit Hn.
  assert (Hfit' : counts_fit "ascii" g) by (intros H; discriminate H).
  destruct (zeus2polaris_success fs nframe output_grid verbose "binary" g q
              Hload (or_introl eq_refl) Hfit Hn)
    as (src & Hsrc & _ & _ & Hb).
  destruct (zeus2polaris_success fs nframe output_grid verbose "ascii" g q
              Hload (or_intror eq_refl) Hfit' Hn)
    as (src' & Hsrc' & _ & _ & Ha).
  rewrite Hsrc in Hsrc'. inversion Hsrc'; subst src'.
  eexists _, _, _, _. split; [exact Hb|]. split; [exact Ha|].
  cbn [contents].
  rewrite !grid_items_values by (try (left; reflexivity); right; reflexivity).
  split; reflexivity.
Qed.

Lemma both_formats_same_values_witness :
  exists fb fa,
    zeus2polaris scenario_store "00001" "grid" true "binary" = (inr tt, Some fb)
    /\ zeus2polaris scenario_store "00001" "grid" true "ascii" = (inr tt, Some fa)
    /\ item_values (contents fb) = item_values (contents fa).
Proof.
  destruct (both_formats_same_values scenario_store "00001" "grid" true
              (fst scenario_loaded) (snd scenario_loaded) scenario_load)
    as (fb & fa & inner & outer & Hb & Ha & Heq & _).
  - intros _. vm_compute. repeat split; discriminate.
  - vm_compute. repeat constructor.
  - exists fb, fa. split; [exact Hb|]. split; [exact Ha | exact Heq].
Defined.

(** ** The loaded quantities *)

(** X16: in a loaded frame each of the seven quantities, after the
    velocity floor and the change of units, has exactly
    [n_r * n_th * n_ph] values, so that indexing it by a cell number never
    leaves the array. *)
Theorem loaded_quantities_have_one_value_per_cell (fs : store)
    (nframe : string) (g : grid) (q : fields) :
  load fs nframe = inr (g, q) ->
  length (rho q) = n_r g * n_th g * n_ph g
  /\ length (Vr q) = n_r g * n_th g * n_ph g
  /\ length (Vph q) = n_r g * n_th g * n_ph g
  /\ length (Vth q) = n_r g * n_th g * n_ph g
  /\ length (Br q) = n_r g * n_th g * n_ph g
  /\ length (Bph q) = n_r g * n_th g * n_ph g
  /\ length (Bth q) = n_r g * n_th g * n_ph g
  /\ forall cell, cell < n_cells g ->
       py_index (rho q) (Z.of_nat cell) = inr (nth cell (rho q) 0%float).
Proof.
  intros Hload. pose proof (load_rho_length _ _ _ _ Hload) as Hrho.
  apply load_inv in Hload. destruct Hload as (_ & q0 & Hq & ->).
  apply read_fields_inv in Hq.
  destruct Hq as (H1 & H2 & H3 & H4 & H5 & H6 & H7).
  apply volume_from_shape_length in H1, H2, H3, H4, H5, H6, H7.
  unfold n_cells in *. cbn [preprocess rho Vr Vph Vth Br Bph Bth] in *.
  repeat split; try assumption.
  - rewrite (proj1 (floor_applied_np_where (Vr q0))). assumption.
  - rewrite (proj1 (floor_applied_np_where (Vph q0))). assumption.
  - rewrite (proj1 (floor_applied_np_where (Vth q0))). assumption.
  - rewrite (proj1 (scaled_np_mul (Br q0))). assumption.
  - rewrite (proj1 (scaled_np_mul (Bph q0))). assumption.
  - rewrite (proj1 (scaled_np_mul (Bth q0))). assumption.
  - intros cell Hc. apply py_index_nat. lia.
Qed.

Lemma loaded_quantities_have_one_value_per_cell_witness :
  length (Vth (snd scenario_loaded)) = 4 * 4 * 4
  /\ length (Bph (snd scenario_loaded)) = 4 * 4 * 4.
Proof.
  destruct (loaded_quantities_have_one_value_per_cell scenario_store "00001"
              (fst scenario_loaded) (snd scenario_loaded) scenario_load)
    as (_ & _ & _ & Hv & _ & Hb & _).
  split; [exact Hv | exact Hb].
Defined.

Lemma index3_bound (i j k a b c : nat) :
  i < a -> j < b -> k < c -> (i * c + k) * b + j < a * c * b.
Proof.
  intros Hi Hj Hk.
  assert (H1 : i * c + k + 1 <= a * c) by nia.
  assert (H2 : (i * c + k + 1) * b <= a * c * b)
    by (apply Nat.mul_le_mono_r; exact H1).
  lia.
Qed.

(** X17: the order of the cells in the file.  The record number
    [(i * n_th + k) * n_ph + j] holds the density found at position
    [(i + 3) + (n_r + 6) * ((j + 3) + (n_ph + 6) * (k + 3))] of the density
    file: the radial index runs slowest and the second axis of the file
    runs fastest. *)
Theorem cell_record_order (fs : store) (nframe output_grid : string)
    (verbose : bool) (grid_format : string) (g : grid) (q : fields) :
  load fs nframe = inr (g, q) ->
  valid_format grid_format ->
  counts_fit grid_format g ->
  1 <= n_r g ->
  exists file_ prefix records density,
    fs ("o_d__" ++ nframe)%string = Some density
    /\ zeus2polaris fs nframe output_grid verbose grid_format
       = (inr tt, Some file_)
    /\ contents file_ = prefix ++ concat records ++ central_cell grid_format
    /\ length records = n_r g * n_th g * n_ph g
    /\ forall i j k,
         i < n_r g -> j < n_ph g -> k < n_th g ->
         nth ((i * n_th g + k) * n_ph g + j) records []
         = cell_record grid_format
             (nth ((i + 3) + (n_r g + 6) * ((j + 3) + (n_ph g + 6) * (k + 3)))
                  density 0%float).
Proof.
  intros Hload Hv Hfit Hn.
  destruct (zeus2polaris_success fs nframe output_grid verbose grid_format
              g q Hload Hv Hfit Hn) as (src & Hsrc & Hlen & Hr & Hrun).
  pose proof Hload as Hinv. apply load_inv in Hinv.
  destruct Hinv as (_ & q0 & Hq & Eq).
  apply read_fields_inv in Hq. destruct Hq as ((density & Hd & Hdl & Hrho) & _).
  assert (Hrho' : rho q = trimmed_volume density (shape g) (Z.of_nat nghost)).
  { rewrite Eq. exact Hrho. }
  eexists _,
    (header_items grid_format
     ++ parameter_items grid_format (nth nghost src 0%float)
          (nth (length src - nghost) src 0%float) (n_r g) (n_ph g) (n_th g)
     ++ edge_items grid_format (r_e g)
     ++ edge_items grid_format (ph_e g)
     ++ edge_items grid_format (th_e g)),
    (cell_records grid_format (rho q) (n_cells g)), density.
  split; [exact Hd|]. split; [exact Hrun|].
  split; [cbn [contents]; unfold grid_items; rewrite <- !app_assoc; reflexivity|].
  split; [unfold cell_records, n_cells; rewrite length_map, length_seq; reflexivity|].
  intros i j k Hi Hj Hk.
  assert (Hc : (i * n_th g + k) * n_ph g + j < n_cells g)
    by (unfold n_cells; apply index3_bound; assumption).
  unfold cell_records.
  rewrite (nth_map_in _ (seq 0 (n_cells g)) _ 0) by (rewrite length_seq; exact Hc).
  rewrite seq_nth by exact Hc. cbn [Nat.add]. f_equal.
  rewrite Hrho'. unfold shape, nghost.
  pose proof (trimmed_volume_nth density (n_r g + 2 * 3) (n_ph g + 2 * 3)
                (n_th g + 2 * 3) 3 i j k) as Hnth.
  replace (n_r g + 2 * 3 - 2 * 3) with (n_r g) in Hnth by lia.
  replace (n_ph g + 2 * 3 - 2 * 3) with (n_ph g) in Hnth by lia.
  replace (n_th g + 2 * 3 - 2 * 3) with (n_th g) in Hnth by lia.
  replace (n_r g + 2 * 3) with (n_r g + 6) in Hnth by lia.
  replace (n_ph g + 2 * 3) with (n_ph g + 6) in Hnth by lia.
  replace (n_th g + 2 * 3) with (n_th g + 6) in Hnth by lia.
  replace (n_r g + 2 * 3) with (n_r g + 6) by lia.
  replace (n_ph g + 2 * 3) with (n_ph g + 6) by lia.
  replace (n_th g + 2 * 3) with (n_th g + 6) by lia.
  apply Hnth; try assumption; lia.
Qed.

Lemma cell_record_order_witness :
  exists file_ prefix records,
    zeus2polaris scenario_store "00001" "grid" true "ascii"
      = (inr tt, Some file_)
    /\ contents file_ = prefix ++ concat records ++ central_cell "ascii"
    /\ nth ((1 * 4 + 3) * 4 + 2) records []
       = cell_record "ascii" (nth 654 scenario_density 0%float).
Proof.
  destruct (cell_record_order scenario_store "00001" "grid" true "ascii"
              (fst scenario_loaded) (snd scenario_loaded) scenario_load)
    as (file_ & prefix & records & density & Hd & Hrun & Hc & _ & Hnth).
  - right. reflexivity.
  - intros H. discriminate H.
  - vm_compute. repeat constructor.
  - exists file_, prefix, records.
    split; [exact Hrun|]. split; [exact Hc|].
    change (scenario_store ("o_d__" ++ "00001")%string)
      with (Some scenario_density) in Hd.
    inversion Hd; subst density.
    apply (Hnth 1 2 3); vm_compute; repeat constructor.
Defined.

(** ** The entry point *)

Lemma string_length_append (s t : string) :
  String.length (s ++ t) = String.length s + String.length t.
Proof. induction s as [|c s IH]; simpl; [reflexivity | rewrite IH; reflexivity]. Qed.

Lemma zeros_length (n : nat) : String.length (zeros n) = n.
Proof. induction n as [|n IH]; simpl; [reflexivity | rewrite IH; reflexivity]. Qed.

Lemma zfill_length (width : nat) (s : string) :
  String.length (zfill width s) = Nat.max width (String.length s).
Proof.
  unfold zfill. destruct (Nat.leb_spec width (String.length s)) as [H|H]; [lia|].
  destruct s as [|c rest].
  - rewrite zeros_length. simpl. lia.
  - destruct (Ascii.eqb c "+" || Ascii.eqb c "-")%bool.
    + cbn [String.length] in *.
      rewrite string_length_append, zeros_length. lia.
    + rewrite string_length_append, zeros_length. lia.
Qed.

(** X18: [zfill] pads to the width and never cuts: the result has
    [max width (len s)] characters, a string that is long enough comes back
    unchanged, a second [zfill] changes nothing, and a short string without
    sign gets its zeros in front. *)
Theorem zfill_pads (width : nat) (s : string) :
  String.length (zfill width s) = Nat.max width (String.length s)
  /\ (width <= String.length s -> zfill width s = s)
  /\ zfill width (zfill width s) = zfill width s
  /\ (forall c rest,
        s = String c rest -> c <> "+"%char -> c <> "-"%char ->
        String.length s < width ->
        zfill width s = (zeros (width - String.length s) ++ s)%string).
Proof.
  split; [apply zfill_length|]. split; [|split].
  - intros H. unfold zfill. apply Nat.leb_le in H. rewrite H. reflexivity.
  - pose proof (zfill_length width s) as Hlen.
    unfold zfill at 1.
    destruct (Nat.leb_spec width (String.length (zfill width s))) as [H|H];
      [reflexivity | lia].
  - intros c rest -> Hp Hm Hlt. unfold zfill.
    destruct (Nat.leb_spec width (String.length (String c rest))) as [H|H];
      [lia|].
    apply Ascii.eqb_neq in Hp. apply Ascii.eqb_neq in Hm.
    rewrite Hp, Hm. reflexivity.
Qed.

Lemma zfill_pads_witness :
  zfill 5 "123456" = "123456"
  /\ zfill 5 "42" = (zeros (5 - 2) ++ "42")%string.
Proof.
  destruct (zfill_pads 5 "123456") as (_ & Hlong & _).
  destruct (zfill_pads 5 "42") as (_ & _ & _ & Hshort).
  split.
  - apply Hlong. simpl. lia.
  - apply (Hshort "4"%char "2"); try discriminate; try reflexivity.
    simpl. lia.
Defined.

(** X19: the entry point writes an ascii grid under [polaris_grid/].  With
    a frame that loads and a radial axis that is not empty, it raises the
    exception of [open] and leaves no file when the output cannot be opened
    (nothing creates the directory), and otherwise it finishes, however
    many cells an axis has, and leaves the closed file
    [polaris_grid/lmd2.4-1k-Slw_<nframe>.txt], where [<nframe>] is the first
    argument, or else the line typed, padded to five characters. *)
Theorem main_writes_ascii_grid (open_error : string -> option exn)
    (fs : store) (argv : list string) (typed : string) (g : grid)
    (q : fields) :
  let nframe :=
    zfill 5 (if Nat.ltb 1 (length argv) then nth 1 argv EmptyString else typed) in
  let path := ("polaris_grid/lmd2.4-1k-Slw_" ++ nframe ++ ".txt")%string in
  load fs nframe = inr (g, q) ->
  1 <= n_r g ->
  (forall e, open_error path = Some e ->
     main open_error fs argv typed = (inl e, None))
  /\ (open_error path = None ->
      exists file_,
        main open_error fs argv typed = (inr tt, Some file_)
        /\ name file_ = path
        /\ mode file_ = "w"
        /\ closed file_ = true
        /\ Forall (fun x => exists var endl, x = Text var endl)
             (contents file_)
        /\ 5 <= String.length nframe).
Proof.
  intros nframe path Hload Hn.
  assert (Hmain : main open_error fs argv typed
                  = zeus2polaris_opening open_error fs nframe
                      ("polaris_grid/lmd2.4-1k-Slw_" ++ nframe) true "ascii").
  { unfold main, nframe. destruct (Nat.ltb 1 (length argv)); reflexivity. }
  assert (Hpath : output_name ("polaris_grid/lmd2.4-1k-Slw_" ++ nframe) "ascii"
                  = path).
  { unfold output_name, path. cbn [is_binary String.eqb Ascii.eqb Bool.eqb].
    reflexivity. }
  split.
  - intros e Hopen. rewrite Hmain. rewrite <- Hpath in Hopen.
    apply (zeus2polaris_opening_fails _ _ _ _ _ _ g q e Hload
             (or_intror eq_refl) Hopen).
  - intros Hopen. rewrite <- Hpath in Hopen.
    assert (Hfit : counts_fit "ascii" g) by (intros H; discriminate H).
    destruct (zeus2polaris_success fs nframe
                ("polaris_grid/lmd2.4-1k-Slw_" ++ nframe) true "ascii" g q
                Hload (or_intror eq_refl) Hfit Hn)
      as (src & _ & _ & _ & Hrun).
    eexists. split.
    { rewrite Hmain, (zeus2polaris_opening_opens _ _ _ _ _ _ Hopen).
      exact Hrun. }
    cbn [name mode closed contents].
    split; [exact Hpath|].
    split; [reflexivity|]. split; [reflexivity|]. split.
    + apply ascii_items_are_text.
    + unfold nframe. rewrite zfill_length. lia.
Qed.

Lemma main_writes_ascii_grid_witness :
  (exists file_,
     main (fun _ => None) scenario_store ["zeus2polaris_old.py"; "1"]
       EmptyString = (inr tt, Some file_)
     /\ name file_ = "polaris_grid/lmd2.4-1k-Slw_00001.txt"
     /\ closed file_ = true)
  /\ (exists e,
     main (missing_directory "polaris_grid/") scenario_store
       ["zeus2polaris_old.py"; "1"] EmptyString = (inl e, None)).
Proof.
  split.
  - destruct (main_writes_ascii_grid (fun _ => None) scenario_store
                ["zeus2polaris_old.py"; "1"] EmptyString
                (fst scenario_loaded) (snd scenario_loaded) scenario_load)
      as (_ & Hok).
    + vm_compute. repeat constructor.
    + destruct (Hok eq_refl) as (file_ & Hrun & Hname & _ & Hclosed & _).
      exists file_. split; [exact Hrun|].
      split; [exact Hname | exact Hclosed].
  - destruct (main_writes_ascii_grid (missing_directory "polaris_grid/")
                scenario_store ["zeus2polaris_old.py"; "1"] EmptyString
                (fst scenario_loaded) (snd scenario_loaded) scenario_load)
      as (Hfail & _).
    + vm_compute. repeat constructor.
    + eexists. apply Hfail. reflexivity.
Defined.

(** ** The catalogue *)

Lemma dict_get_seq (d : list (Z * string)) (s : nat) (key : Z) :
  map fst d = map Z.of_nat (seq s (length d)) ->
  (exists v, dict_get d key = Some v)
  <-> (Z.of_nat s <= key < Z.of_nat (s + length d))%Z.
Proof.
  revert s. induction d as [|[k v] d IH]; intros s Hkeys.
  - simpl. split; [intros [v H]; discriminate H | lia].
  - cbn [map fst length seq] in Hkeys. inversion Hkeys as [[Hk Hrest]].
    cbn [dict_get length].
    destruct (Z.eqb_spec (Z.of_nat s) key) as [E|E].
    + split; [intros _; lia | intros _; eexists; reflexivity].
    + rewrite (IH (S s) Hrest). lia.
Qed.

(** X20: the catalogue describes exactly the quantity IDs 0 to 35, and the
    two IDs the grid header announces are among them: 28 is the gas mass
    density and 29 the dust mass density. *)
Theorem catalogue_covers_header (key : Z) :
  ((exists v, dict_get descriptions key = Some v) <-> (0 <= key <= 35)%Z)
  /\ Forall (fun q => exists v, dict_get descriptions q = Some v) IDs
  /\ map (dict_get descriptions) IDs
     = [Some "gas mass density"; Some "dust mass density"].
Proof.
  split; [|split].
  - rewrite (dict_get_seq descriptions 0 key eq_refl).
    change (length descriptions) with 36. lia.
  - repeat constructor; eexists; reflexivity.
  - reflexivity.
Qed.
